(** * Bravo: the mention-driven dispatch loop and the voice front end

    A shallow embedding of
      - [Browser-Agent/main.py]   (the orchestration loop of [main]),
      - [Voice-Agent/main.py]     ([ConversationManager.call_coral_agent],
                                   [handle_interrupt], [run_voice_session],
                                   the text/voice loop of [main]),
      - [Voice-Agent/utils/coral_agent.py] (the [deque(maxlen=3)] history),
    followed by the properties of the design document that concern them.

    The hub, the reasoning engine, the speech provider and the helpers of
    [utils.coral_config] / [utils.browser_agent] are external: each call to
    them is an observable event whose outcome (a value or a raised
    exception) is supplied by the environment.  Python strings are held
    as their UTF-8 bytes. *)

From Stdlib Require Import Ascii ZArith QArith Lia.
From stdpp Require Import gmap strings list pretty.

#[local] Set Warnings "-register-all".
#[local] Open Scope string_scope.
#[local] Open Scope list_scope.

(** ** Python values *)

(** The values that travel through the loop: JSON-like data. *)
Inductive pyval : Type :=
| PNone
| PBool (b : bool)
| PInt (z : Z)
| PStr (s : string)
| PList (l : list pyval)
| PDict (d : gmap string pyval).

(** [bool(v)]: Python truthiness. *)
Definition truthy (v : pyval) : bool :=
  match v with
  | PNone => false
  | PBool b => b
  | PInt z => negb (z =? 0)%Z
  | PStr s => negb (String.eqb s "")
  | PList l => match l with [] => false | _ :: _ => true end
  | PDict d => negb (bool_decide (d = ∅))
  end.

(** [d.get(k)] and [d.get(k, dflt)]. *)
Definition dict_get_default (d : gmap string pyval) (k : string) (dflt : pyval)
  : pyval :=
  default dflt (d !! k).

Definition dict_get (d : gmap string pyval) (k : string) : pyval :=
  dict_get_default d k PNone.

(** [all(vs)]. *)
Definition py_all (vs : list pyval) : bool := forallb truthy vs.

(** [needle in hay] on strings. *)
Fixpoint str_contains (needle hay : string) : bool :=
  String.prefix needle hay ||
  match hay with
  | EmptyString => false
  | String _ hay' => str_contains needle hay'
  end.

(** An exception deriving from [Exception], identified by [str(e)].
    ([KeyboardInterrupt] and the like, which [except Exception] lets
    through, are told apart in the voice front end only.) *)
Definition exn : Type := string.

(** What a call that may raise produces. *)
Inductive outcome (A : Type) : Type :=
| Ok (a : A)
| Raise (e : exn).
Arguments Ok {A} a.
Arguments Raise {A} e.

Definition returned {A} (o : outcome A) : bool :=
  match o with Ok _ => true | Raise _ => false end.

(** ** Browser-Agent/main.py *)

Module BrowserAgent.

(** Lines 26-27.  [ERROR_RETRY_INTERVAL] is declared and used nowhere in
    [main.py]. *)
Definition SLEEP_INTERVAL : Z := 1.
Definition ERROR_RETRY_INTERVAL : Z := 5.

Inductive level : Type := INFO | WARNING | ERROR | DEBUG.

(** The observable actions of the loop.  A log event carries the level and
    the text of the message up to its first interpolated value (for the
    error log, the whole message); a call event carries the arguments and
    whether the call returned ([true]) or raised ([false]). *)
Inductive event : Type :=
| EvLog (lvl : level) (text : string)
| EvGetResources (ret : bool)
| EvWaitForMentions (timeoutMs : Z) (ret : bool)
| EvProcessAgentQuery (input_query tool_result last_tool_call : pyval)
                      (step : Z) (ret : bool)
| EvSendMessage (threadId content : pyval) (mentions : list pyval) (ret : bool)
| EvSleep (seconds : Z).

(** The local variables of [main] that live across iterations
    (lines 111-113). *)
Record loop_state : Type := mkState {
  tool_result : pyval;
  last_tool_call : pyval;
  step : Z
}.

Definition initial_state : loop_state :=
  {| tool_result := PNone; last_tool_call := PNone; step := 0 |}.

(** The body of the [try] block: it emits events, updates the local
    variables, and either completes or raises. *)
Definition M (A : Type) : Type :=
  loop_state -> list event * loop_state * outcome A.

Definition ret {A} (a : A) : M A := fun st => ([], st, Ok a).

Definition bind {A B} (m : M A) (f : A -> M B) : M B :=
  fun st =>
    match m st with
    | (t, st', Ok a) =>
        match f a st' with
        | (t', st'', r) => (t ++ t', st'', r)
        end
    | (t, st', Raise e) => (t, st', Raise e)
    end.

Notation "x <- m ;; k" := (bind m (fun x => k))
  (at level 100, m at next level, right associativity).
Notation "m ;; k" := (bind m (fun _ => k))
  (at level 100, right associativity).

Definition emit (ev : event) : M unit := fun st => ([ev], st, Ok tt).

(** A pure helper that may raise. *)
Definition lift {A} (o : outcome A) : M A := fun st => ([], st, o).

(** An external call: one event, then the call's outcome. *)
Definition call {A} (ev : bool -> event) (o : outcome A) : M A :=
  fun st => ([ev (returned o)], st, o).

Definition get_state : M loop_state := fun st => ([], st, Ok st).

Definition incr_step : M unit :=
  fun st => ([], {| tool_result := tool_result st;
                    last_tool_call := last_tool_call st;
                    step := step st + 1 |}, Ok tt).

Definition log (lvl : level) (text : string) : M unit := emit (EvLog lvl text).
Definition sleep (seconds : Z) : M unit := emit (EvSleep seconds).

Section Loop.

(** The type of what [process_agent_query] returns, and Python's [str] on
    it ([utils.browser_agent] is not part of the sources). *)
Variable Result : Type.
Variable str : Result -> string.

(** The environment during one iteration: the outcome of every external
    call the iteration can make. *)
Record world : Type := mkWorld {
  (** [client.get_resources(server_name="coral")] *)
  get_resources : outcome pyval;
  (** [mcp_resources_details(resources)] *)
  mcp_resources_details : pyval -> outcome pyval;
  (** [agent_tools['wait_for_mentions'].ainvoke({"timeoutMs": t})] *)
  wait_for_mentions : Z -> outcome pyval;
  (** [parse_mentions_response(mentions_response)]: a list of dicts
      ([None], falsy like the empty list, is read as [[]]) *)
  parse_mentions_response : pyval -> outcome (list (gmap string pyval));
  (** [process_agent_query(input_query, tool_result, last_tool_call, step,
      agent_chain, agent_tools_description, session)] *)
  process_agent_query : pyval -> pyval -> pyval -> Z -> outcome Result;
  (** [agent_tools['send_message'].ainvoke({threadId, content, mentions})] *)
  send_message : pyval -> pyval -> list pyval -> outcome unit
}.

(** Line 125: [isinstance(r, str) and "No new messages" in r]. *)
Definition no_new_messages (mentions_response : pyval) : bool :=
  match mentions_response with
  | PStr s => str_contains "No new messages" s
  | _ => false
  end.

(** Line 130: [not messages or not messages[0].get('threadId')]. *)
Definition no_thread (messages : list (gmap string pyval)) : bool :=
  match messages with
  | [] => true
  | message :: _ => negb (truthy (dict_get message "threadId"))
  end.

(** Lines 117-172: the body of the [try]. *)
Definition try_body (w : world) : M unit :=
  log INFO "***********************Waiting for Mentions***********************";;
  resources <- call EvGetResources (get_resources w);;
  coral_resources <- lift (mcp_resources_details w resources);;
  mentions_response <- call (EvWaitForMentions 30000) (wait_for_mentions w 30000);;
  log INFO "Received mentions response: ";;
  if no_new_messages mentions_response then
    sleep SLEEP_INTERVAL
  else
    messages <- lift (parse_mentions_response w mentions_response);;
    if no_thread messages then
      sleep SLEEP_INTERVAL
    else
      match messages with
      | [] => lift (Raise "IndexError: list index out of range")
      | message :: _ =>
          let thread_id := dict_get message "threadId" in
          let sender_id := dict_get message "senderId" in
          let content := dict_get message "content" in
          if negb (py_all [thread_id; sender_id; content]) then
            log WARNING "Missing message fields: thread_id=";;
            call (EvSendMessage thread_id (PStr "Error: Missing message fields")
                                [sender_id])
                 (send_message w thread_id (PStr "Error: Missing message fields")
                               [sender_id]);;
            sleep SLEEP_INTERVAL
          else
            let input_query := content in
            log INFO "Content: ";;
            st <- get_state;;
            browser_result <-
              call (EvProcessAgentQuery input_query (tool_result st)
                                        (last_tool_call st) (step st))
                   (process_agent_query w input_query (tool_result st)
                                        (last_tool_call st) (step st));;
            incr_step;;
            log INFO "browser_result: ";;
            let answer := PStr (str browser_result) in
            log INFO "Final answer: ";;
            call (EvSendMessage thread_id answer [sender_id])
                 (send_message w thread_id answer [sender_id]);;
            log INFO "Sent response to thread_id=";;
            sleep SLEEP_INTERVAL
      end.

(** Lines 116-179: one turn of [while True]: the [try] body, and the
    [except Exception] handler when it raises. *)
Definition iteration (w : world) (st : loop_state) : list event * loop_state :=
  match try_body w st with
  | (t, st', Ok _) => (t, st')
  | (t, st', Raise e) =>
      (t ++ [EvLog ERROR ("Error in agent loop: " +:+ e);
             EvLog DEBUG "Traceback: "], st')
  end.

(** Lines 115-179: the loop, run against the environments of its
    successive iterations. *)
Fixpoint main_loop (ws : list world) (st : loop_state)
  : list event * loop_state :=
  match ws with
  | [] => ([], st)
  | w :: ws' =>
      let '(t, st') := iteration w st in
      let '(t', st'') := main_loop ws' st' in
      (t ++ t', st'')
  end.

End Loop.

Arguments mkWorld {Result}.
Arguments get_resources {Result}.
Arguments mcp_resources_details {Result}.
Arguments wait_for_mentions {Result}.
Arguments parse_mentions_response {Result}.
Arguments process_agent_query {Result}.
Arguments send_message {Result}.
Arguments try_body {Result}.
Arguments iteration {Result}.
Arguments main_loop {Result}.

(** Observations on a trace. *)
Definition is_send (ev : event) : bool :=
  match ev with EvSendMessage _ _ _ _ => true | _ => false end.

Definition is_dispatch (ev : event) : bool :=
  match ev with EvProcessAgentQuery _ _ _ _ _ => true | _ => false end.

Definition is_dispatch_ok (ev : event) : bool :=
  match ev with EvProcessAgentQuery _ _ _ _ r => r | _ => false end.

Definition is_sleep (ev : event) : bool :=
  match ev with EvSleep _ => true | _ => false end.

Definition is_poll (ev : event) : bool :=
  match ev with EvWaitForMentions _ _ => true | _ => false end.

Definition replies (t : list event) : list event := List.filter is_send t.
Definition dispatches (t : list event) : list event := List.filter is_dispatch t.
Definition sleeps (t : list event) : list event := List.filter is_sleep t.

(** The number of dispatches in a trace that returned. *)
Definition successful_dispatches (t : list event) : nat :=
  length (List.filter is_dispatch_ok t).

(** The same environment, with [parse_mentions_response] returning the
    batch [b]. *)
Definition with_batch {Result} (w : world Result)
  (b : list (gmap string pyval)) : world Result :=
  {| get_resources := get_resources w;
     mcp_resources_details := mcp_resources_details w;
     wait_for_mentions := wait_for_mentions w;
     parse_mentions_response := fun _ => Ok b;
     process_agent_query := process_agent_query w;
     send_message := send_message w |}.

(** *** Sample environments *)

(** A hub that answers every call, polls return [resp], which parses to
    [batch]; the engine answers every query with [dispatch]. *)
Definition hub (resp : pyval) (batch : list (gmap string pyval))
  (dispatch : outcome string) : world string :=
  {| get_resources := Ok PNone;
     mcp_resources_details := fun _ => Ok PNone;
     wait_for_mentions := fun _ => Ok resp;
     parse_mentions_response := fun _ => Ok batch;
     process_agent_query := fun _ _ _ _ => dispatch;
     send_message := fun _ _ _ => Ok tt |}.

(** A hub whose poll fails. *)
Definition hub_down : world string :=
  {| get_resources := Ok PNone;
     mcp_resources_details := fun _ => Ok PNone;
     wait_for_mentions := fun _ => Raise "hub unreachable";
     parse_mentions_response := fun _ => Ok [];
     process_agent_query := fun _ _ _ _ => Ok "";
     send_message := fun _ _ _ => Ok tt |}.

Definition well_formed_message : gmap string pyval :=
  list_to_map [("threadId", PStr "t1"); ("senderId", PStr "a1");
               ("content", PStr "go to google")].

Definition message_without_content : gmap string pyval :=
  list_to_map [("threadId", PStr "t1"); ("senderId", PStr "a1")].

Definition message_without_thread : gmap string pyval :=
  list_to_map [("senderId", PStr "a1"); ("content", PStr "go to google")].

Definition second_message : gmap string pyval :=
  list_to_map [("threadId", PStr "t2"); ("senderId", PStr "a2");
               ("content", PStr "click store")].

End BrowserAgent.

(** ** Voice-Agent *)

Module VoiceAgent.

(** *** [collections.deque] with a maximum length *)

Record deque (A : Type) : Type := mkDeque {
  maxlen : option nat;
  items : list A
}.
Arguments mkDeque {A}.
Arguments maxlen {A}.
Arguments items {A}.

(** [deque(maxlen=n)]. *)
Definition deque_new {A} (n : option nat) : deque A :=
  {| maxlen := n; items := [] |}.

(** [d.append(x)]: the item goes to the right end; a deque that is then
    longer than its maximum length drops its leftmost item. *)
Definition deque_append {A} (d : deque A) (x : A) : deque A :=
  let l := items d ++ [x] in
  {| maxlen := maxlen d;
     items := match maxlen d with
              | Some n => if (n <? length l)%nat then drop 1 l else l
              | None => l
              end |}.

(** *** Strings *)

(** A Python string is held as its UTF-8 bytes.  The white space of
    [str.strip()] is U+0009-000D, U+001C-0020, U+0085, U+00A0, U+1680,
    U+2000-200A, U+2028, U+2029, U+202F, U+205F and U+3000: in UTF-8, the
    one-byte characters of [is_space], the two-byte characters of
    [is_space2] and the three-byte characters of [is_space3]. *)
Definition is_space (a : ascii) : bool :=
  let n := nat_of_ascii a in
  ((9 <=? n) && (n <=? 13) || (28 <=? n) && (n <=? 32))%nat.

(** C2 85 and C2 A0. *)
Definition is_space2 (a b : ascii) : bool :=
  let m := nat_of_ascii a in
  let n := nat_of_ascii b in
  ((m =? 194) && ((n =? 133) || (n =? 160)))%nat.

(** E1 9A 80; E2 80 80-8A, E2 80 A8, E2 80 A9, E2 80 AF; E2 81 9F;
    E3 80 80. *)
Definition is_space3 (a b c : ascii) : bool :=
  let l := nat_of_ascii a in
  let m := nat_of_ascii b in
  let n := nat_of_ascii c in
  ((l =? 225) && (m =? 154) && (n =? 128) ||
   (l =? 226) && (m =? 128) &&
     ((128 <=? n) && (n <=? 138) || (n =? 168) || (n =? 169) || (n =? 175)) ||
   (l =? 226) && (m =? 129) && (n =? 159) ||
   (l =? 227) && (m =? 128) && (n =? 128))%nat.

(** What follows the white-space character that [s] begins with, if it
    begins with one. *)
Definition space_prefix (s : string) : option string :=
  match s with
  | EmptyString => None
  | String a s1 =>
      if is_space a then Some s1
      else match s1 with
           | EmptyString => None
           | String b s2 =>
               if is_space2 a b then Some s2
               else match s2 with
                    | EmptyString => None
                    | String c s3 => if is_space3 a b c then Some s3 else None
                    end
           end
  end.

(** [s.lstrip()]. *)
Fixpoint lstrip (s : string) : string :=
  match s with
  | EmptyString => EmptyString
  | String a s1 =>
      if is_space a then lstrip s1
      else match s1 with
           | EmptyString => s
           | String b s2 =>
               if is_space2 a b then lstrip s2
               else match s2 with
                    | EmptyString => s
                    | String c s3 => if is_space3 a b c then lstrip s3 else s
                    end
           end
  end.

(** [s.rstrip()]: what is left of [s] before its trailing run of white
    space (a tail of [s] is such a run when [lstrip] empties it). *)
Fixpoint rstrip (s : string) : string :=
  match s with
  | EmptyString => EmptyString
  | String a s1 =>
      if String.eqb (lstrip s) "" then EmptyString else String a (rstrip s1)
  end.

(** [s.strip()]. *)
Definition strip (s : string) : string := rstrip (lstrip s).

Definition ascii_lower (a : ascii) : ascii :=
  let n := nat_of_ascii a in
  if ((65 <=? n) && (n <=? 90))%nat then ascii_of_nat (n + 32) else a.

(** [s.lower()], as far as the loop uses it: the letters A-Z are
    lowered and every other byte is kept.  The only character outside
    ASCII that [str.lower()] turns into ASCII is U+212A, into [k], so
    the comparisons of [s.lower()] with "quit" and "v" come out as in
    Python. *)
Fixpoint lower (s : string) : string :=
  match s with
  | EmptyString => EmptyString
  | String a s' => String (ascii_lower a) (lower s')
  end.

Definition newline : string := String (ascii_of_nat 10) EmptyString.

(** [sep.join(parts)]. *)
Fixpoint join (sep : string) (parts : list string) : string :=
  match parts with
  | [] => ""
  | [p] => p
  | p :: rest => p +:+ sep +:+ join sep rest
  end.

(** *** [utils/coral_agent.py] and [ConversationManager] *)

Record CoralAgent : Type := mkCoralAgent {
  history : deque string;
  tools_description : string
}.

(** Line 21 of [coral_agent.py]: [self.history = deque(maxlen=3)]. *)
Definition CoralAgent_init (tools : string) : CoralAgent :=
  {| history := deque_new (Some 3%nat); tools_description := tools |}.

Record ConversationManager : Type := mkManager {
  latest_transcript : pyval;
  coral_agent : option CoralAgent
}.

(** [ConversationManager.__init__]. *)
Definition ConversationManager_init (tools : string) : ConversationManager :=
  {| latest_transcript := PNone; coral_agent := Some (CoralAgent_init tools) |}.

(** [update_transcript]. *)
Definition update_transcript (self : ConversationManager) (transcript : pyval)
  : ConversationManager :=
  {| latest_transcript := transcript; coral_agent := coral_agent self |}.

(** The exceptions the voice front end tells apart: its [except] clauses
    name [asyncio.TimeoutError], [KeyboardInterrupt] and [Exception];
    [ExcBase] is any other exception outside [Exception]. *)
Inductive pyexc : Type :=
| ExcTimeout
| ExcKeyboardInterrupt
| ExcOther (msg : string)
| ExcBase (name : string).

Inductive result (A : Type) : Type :=
| Done (a : A)
| Throw (e : pyexc).
Arguments Done {A} a.
Arguments Throw {A} e.

Definition done {A} (r : result A) : bool :=
  match r with Done _ => true | Throw _ => false end.

(** [isinstance(e, Exception)]. *)
Definition is_Exception (e : pyexc) : bool :=
  match e with
  | ExcTimeout | ExcOther _ => true
  | ExcKeyboardInterrupt | ExcBase _ => false
  end.

(** [str(e)]. *)
Definition exc_str (e : pyexc) : string :=
  match e with
  | ExcTimeout | ExcKeyboardInterrupt => ""
  | ExcOther msg => msg
  | ExcBase name => name
  end.

Inductive event : Type :=
| EvPrint (text : string)
| EvInput (ret : bool)
| EvInvoke (input_query coral_tools_description history_str : string) (ret : bool)
| EvInitConversation (ret : bool)
| EvSignal
| EvStartSession (ret : bool)
| EvWaitForSessionEnd
| EvWaitFor (timeout : Q)
| EvEndSession (ret : bool).

(** [v and v.strip()], as a condition: [Some s] when it is truthy, with
    [s] the stripped text; a truthy value that is not a string has no
    [strip]. *)
Definition and_strip (v : pyval) : result (option string) :=
  if truthy v then
    match v with
    | PStr s => let s' := strip s in
                Done (if String.eqb s' "" then None else Some s')
    | _ => Throw (ExcOther "AttributeError: object has no attribute 'strip'")
    end
  else Done None.

(** Lines 29-39 of [call_coral_agent]: the text handed to the coordinator,
    [None] when neither the argument nor the transcript is usable. *)
Definition coral_agent_input (self : ConversationManager) (input_text : pyval)
  : result (option string) :=
  let input_text :=
    match input_text with
    | PDict d => dict_get_default d "transcript" (PStr "")
    | _ => input_text
    end in
  match and_strip input_text with
  | Throw e => Throw e
  | Done (Some s) => Done (Some s)
  | Done None => and_strip (latest_transcript self)
  end.

(** Line 42: the numbered list of earlier queries, or ["None"]. *)
Definition history_str (h : deque string) : string :=
  match items h with
  | [] => "None"
  | _ => join newline (imap (fun i q => pretty (i + 1)%nat +:+ ". " +:+ q) (items h))
  end.

(** The reasoning engine: [asyncio.run(agent_executor.ainvoke({...}))] on
    the input query, the tools description and the history text; what it
    returns is a dict. *)
Definition engine : Type :=
  string -> string -> string -> result (gmap string pyval).

Definition set_history (ca : CoralAgent) (h : deque string) : CoralAgent :=
  {| history := h; tools_description := tools_description ca |}.

Definition set_coral_agent (self : ConversationManager) (ca : CoralAgent)
  : ConversationManager :=
  {| latest_transcript := latest_transcript self; coral_agent := Some ca |}.

(** Lines 23-56: [ConversationManager.call_coral_agent]. *)
Definition call_coral_agent (ainvoke : engine) (self : ConversationManager)
  (input_text : pyval) : list event * ConversationManager * result pyval :=
  match coral_agent self with
  | None => ([], self, Done (PStr "Error: CoralAgent not properly initialized"))
  | Some ca =>
      match coral_agent_input self input_text with
      | Throw e => ([], self, Throw e)
      | Done None =>
          ([], self, Done (PStr "Error: No valid input or transcript available"))
      | Done (Some input) =>
          let hs := history_str (history ca) in
          let r := ainvoke input (tools_description ca) hs in
          let ev := EvInvoke input (tools_description ca) hs (done r) in
          match r with
          | Done res =>
              let coral_agent_output :=
                dict_get_default res "output" (PStr "No response from CoralAgent") in
              ([ev],
               set_coral_agent self (set_history ca (deque_append (history ca) input)),
               Done coral_agent_output)
          | Throw e =>
              if is_Exception e then
                ([ev], self, Done (PStr ("Error in CoralAgent: " +:+ exc_str e)))
              else ([ev], self, Throw e)
          end
      end
  end.

(** *** The voice session *)

(** How the call [conversation.wait_for_session_end()] of line 108 goes.
    It is a plain, blocking method of the provider's [Conversation]: it
    waits for the session's thread to end and returns the conversation
    id; it is not awaitable.  Times are seconds since the call began. *)
Inductive wait_outcome : Type :=
| Ends (seconds : Q) (r : result pyval)
    (** the session ends by itself; the call returns the id, or raises *)
| Interrupted (seconds : Q)
    (** the operator sends SIGINT while the call is blocked *)
| Never.
    (** neither happens: the call does not return *)

(** The speech provider and the operator during one voice session. *)
Record session_env : Type := mkSession {
  (** [initialize_conversation(...)] *)
  initialize_conversation : result unit;
  (** [conversation.start_session()] *)
  start_session : result unit;
  (** [conversation.wait_for_session_end()] *)
  wait_for_session_end : wait_outcome;
  (** [conversation.end_session()] *)
  end_session : result unit;
  (** [str(e)] of the [TypeError] that [asyncio.wait_for] raises on a
      value that is not awaitable (the text depends on the Python
      version) *)
  not_awaitable : string
}.

(** Lines 94-97: [signal_handler]. *)
Definition signal_handler (env : session_env) : list event * pyexc :=
  match end_session env with
  | Done _ =>
      ([EvEndSession true; EvPrint (newline +:+ "Voice session terminated.")],
       ExcKeyboardInterrupt)
  | Throw e => ([EvEndSession false], e)
  end.

(** [await asyncio.wait_for(aw, timeout=...)] for [aw] the value that
    [wait_for_session_end()] returned: a string or [None] cannot be
    awaited, whatever the timeout. *)
Definition asyncio_wait_for (env : session_env) (aw : pyval) (timeout : Q)
  : result pyval :=
  Throw (ExcOther (not_awaitable env)).

(** Lines 111-118: the [except] clauses of [run_voice_session]. *)
Definition except_clauses (env : session_env) (e : pyexc)
  : list event * result unit :=
  match e with
  | ExcTimeout =>
      ([EvPrint "Voice session timed out after 2 minutes.";
        EvEndSession (done (end_session env))], end_session env)
  | ExcKeyboardInterrupt => ([], Done tt)
  | ExcOther msg =>
      ([EvPrint ("Error in voice session: " +:+ msg);
        EvEndSession (done (end_session env))], end_session env)
  | ExcBase _ => ([], Throw e)
  end.

(** Lines 100-118, as run by [asyncio.run] at line 149; [None] when the
    call never returns.  The argument of [asyncio.wait_for] is evaluated
    first: the session is waited for before any timeout is set up. *)
Definition run_voice_session (env : session_env)
  : list event * option (result unit) :=
  match initialize_conversation env with
  | Throw e => ([EvInitConversation false], Some (Throw e))
  | Done _ =>
      let pre := [EvInitConversation true; EvSignal] in
      match start_session env with
      | Throw e =>
          let '(t, r) := except_clauses env e in
          (pre ++ [EvStartSession false] ++ t, Some r)
      | Done _ =>
          let pre := pre ++ [EvStartSession true; EvWaitForSessionEnd] in
          match wait_for_session_end env with
          | Never => (pre, None)
          | Interrupted _ =>
              let '(th, e) := signal_handler env in
              let '(t, r) := except_clauses env e in
              (pre ++ th ++ t, Some r)
          | Ends _ (Throw e) =>
              let '(t, r) := except_clauses env e in
              (pre ++ t, Some r)
          | Ends _ (Done aw) =>
              let pre := pre ++ [EvWaitFor 120] in
              match asyncio_wait_for env aw 120 with
              | Done conversation_id =>
                  (pre ++
                   (if truthy conversation_id
                    then [EvPrint "Voice session ended. Conversation ID: "]
                    else []),
                   Some (Done tt))
              | Throw e =>
                  let '(t, r) := except_clauses env e in
                  (pre ++ t, Some r)
              end
          end
      end
  end.

(** *** The text/voice loop of [main] *)

Record main_env : Type := mkMainEnv {
  (** [input("Enter your query ...")]; [Throw ExcKeyboardInterrupt] is a
      SIGINT at the prompt *)
  read_input : result string;
  session : session_env;
  (** the engine; [Throw ExcKeyboardInterrupt] is a SIGINT during the
      invocation *)
  ainvoke : engine;
  (** what the provider's callbacks ([update_transcript],
      [call_coral_agent] as a client tool) do to the manager during a
      voice session *)
  callbacks : ConversationManager -> ConversationManager
}.

Inductive control : Type := Continue | Break.

(** What lives across the turns of the loop: the manager, and the
    conversation whose [signal_handler] is installed for SIGINT.
    [handle_interrupt] installs it at the start of a voice session and
    nothing uninstalls it; before the first voice session ([None])
    Python's own handler raises [KeyboardInterrupt]. *)
Record main_state : Type := mkMain {
  manager : ConversationManager;
  handler : option session_env
}.

Definition main_init (mgr : ConversationManager) : main_state :=
  {| manager := mgr; handler := None |}.

(** What a SIGINT does: the events of the installed handler, and the
    exception it raises. *)
Definition on_sigint (handler : option session_env) : list event * pyexc :=
  match handler with
  | None => ([], ExcKeyboardInterrupt)
  | Some conversation => signal_handler conversation
  end.

(** The engine as [call_coral_agent] sees it: on a SIGINT, what reaches
    its [try] is the exception of the installed handler. *)
Definition interruptible (handler : option session_env) (ainvoke : engine)
  : engine :=
  fun input_query tools hs =>
    match ainvoke input_query tools hs with
    | Throw ExcKeyboardInterrupt => Throw (on_sigint handler).2
    | r => r
    end.

(** Whether [call_coral_agent] gets to invoke the engine and a SIGINT
    arrives during the invocation. *)
Definition sigint_during_call (ainvoke : engine) (self : ConversationManager)
  (input_text : pyval) : bool :=
  match coral_agent self, coral_agent_input self input_text with
  | Some ca, Done (Some q) =>
      match ainvoke q (tools_description ca) (history_str (history ca)) with
      | Throw ExcKeyboardInterrupt => true
      | _ => false
      end
  | _, _ => false
  end.

(** Lines 142-156: the body of the [try]; [None] when it never
    completes. *)
Definition main_try (env : main_env) (st : main_state)
  : list event * main_state * option (result control) :=
  match read_input env with
  | Throw ExcKeyboardInterrupt =>
      let '(th, e) := on_sigint (handler st) in
      ([EvInput false] ++ th, st, Some (Throw e))
  | Throw e => ([EvInput false], st, Some (Throw e))
  | Done line =>
      let user_input := strip line in
      if String.eqb (lower user_input) "quit" then
        ([EvInput true; EvPrint "Exiting program."], st, Some (Done Break))
      else if String.eqb (lower user_input) "v" then
        let '(t, r) := run_voice_session (session env) in
        let t := [EvInput true; EvPrint "Switching to voice mode (2-minute timeout). Speak now or press Ctrl+C to return to text mode."] ++ t in
        let st' :=
          {| manager := callbacks env (manager st);
             handler := if done (initialize_conversation (session env))
                        then Some (session env) else handler st |} in
        match r with
        | Some (Done _) =>
            (t ++ [EvPrint "Returning to text mode."], st', Some (Done Continue))
        | Some (Throw e) => (t, st', Some (Throw e))
        | None => (t, st', None)
        end
      else if negb (String.eqb user_input "") then
        let th :=
          if sigint_during_call (ainvoke env) (manager st) (PStr user_input)
          then (on_sigint (handler st)).1 else [] in
        match call_coral_agent (interruptible (handler st) (ainvoke env))
                (manager st) (PStr user_input) with
        | (t, mgr', Done response) =>
            ([EvInput true] ++ t ++ th ++ [EvPrint "Agent: "],
             {| manager := mgr'; handler := handler st |}, Some (Done Continue))
        | (t, mgr', Throw e) =>
            ([EvInput true] ++ t ++ th,
             {| manager := mgr'; handler := handler st |}, Some (Throw e))
        end
      else
        ([EvInput true; EvPrint "Error: No input provided"], st,
         Some (Done Continue))
  end.

(** Lines 141-162: one turn of [while True], with its [except] clauses.
    [Some (Throw e)] is an exception that leaves [main]. *)
Definition main_iteration (env : main_env) (st : main_state)
  : list event * main_state * option (result control) :=
  match main_try env st with
  | (t, st', Some (Throw ExcKeyboardInterrupt)) =>
      (t ++ [EvPrint (newline +:+ "Returning to text mode.")], st',
       Some (Done Continue))
  | (t, st', Some (Throw (ExcBase name))) => (t, st', Some (Throw (ExcBase name)))
  | (t, st', Some (Throw e)) =>
      (t ++ [EvPrint ("Error: " +:+ exc_str e)], st', Some (Done Continue))
  | (t, st', r) => (t, st', r)
  end.

(** The [n] most recent items of a list, oldest first. *)
Definition lastn {A} (n : nat) (l : list A) : list A := drop (length l - n) l.

(** *** Sample environments *)

Definition type_error : string :=
  "An asyncio.Future, a coroutine or an awaitable is required".

(** The provider never ends the session and nobody interrupts. *)
Definition silent_provider : session_env :=
  {| initialize_conversation := Done tt;
     start_session := Done tt;
     wait_for_session_end := Never;
     end_session := Done tt;
     not_awaitable := type_error |}.

(** The provider ends the session after 300 seconds. *)
Definition late_provider : session_env :=
  {| initialize_conversation := Done tt;
     start_session := Done tt;
     wait_for_session_end := Ends 300%Q (Done (PStr "conv_1"));
     end_session := Done tt;
     not_awaitable := type_error |}.

(** The operator interrupts after 60 seconds. *)
Definition interrupted_provider : session_env :=
  {| initialize_conversation := Done tt;
     start_session := Done tt;
     wait_for_session_end := Interrupted 60%Q;
     end_session := Done tt;
     not_awaitable := type_error |}.

Definition voice_request (env : session_env) : main_env :=
  {| read_input := Done "v";
     session := env;
     ainvoke := fun _ _ _ => Done ∅;
     callbacks := fun mgr => mgr |}.

Definition is_end_session (ev : event) : bool :=
  match ev with EvEndSession _ => true | _ => false end.

Definition end_sessions (t : list event) : nat :=
  length (List.filter is_end_session t).

End VoiceAgent.

(** ** Reading a trace of the browser loop *)

Module BrowserTrace.

Import BrowserAgent.

(** The step arguments of the dispatches of [t] count up from [n]: each
    dispatch is given the current count, and the count moves on when the
    dispatch returns. *)
Fixpoint steps_numbered (n : Z) (t : list event) : Prop :=
  match t with
  | [] => True
  | EvProcessAgentQuery _ _ _ k b :: t' =>
      k = n /\ steps_numbered (if b then (n + 1)%Z else n) t'
  | _ :: t' => steps_numbered n t'
  end.

(** A hub whose resource listing fails. *)
Definition hub_without_resources : world string :=
  {| get_resources := Raise "resources unavailable";
     mcp_resources_details := fun _ => Ok PNone;
     wait_for_mentions := fun _ => Ok (PStr "No new messages");
     parse_mentions_response := fun _ => Ok [];
     process_agent_query := fun _ _ _ _ => Ok "";
     send_message := fun _ _ _ => Ok tt |}.

End BrowserTrace.

(** ** Browser-Agent/main.py: tool descriptions and configuration *)

Module BrowserSetup.

(** [s.replace(old, new)] for a one-character [old]. *)
Fixpoint replace_char (old : ascii) (new : string) (s : string) : string :=
  match s with
  | EmptyString => EmptyString
  | String a s' =>
      if Ascii.eqb a old then new +:+ replace_char old new s'
      else String a (replace_char old new s')
  end.

(** A tool, as [get_tools_description] reads it: its name and the text of
    [json.dumps(tool.args)]. *)
Record tool : Type := mkTool {
  name : string;
  args_json : string
}.

(** Line 57: [.replace('{', '{{').replace('}', '}}')]. *)
Definition escape_braces (s : string) : string :=
  replace_char "}" "}}" (replace_char "{" "{{" s).

(** Lines 55-59: [get_tools_description]. *)
Definition get_tools_description (tools : list tool) : string :=
  VoiceAgent.join VoiceAgent.newline
    (map (fun t => "Tool: " +:+ name t +:+ ", Schema: " +:+
                   escape_braces (args_json t)) tools).

(** Every brace of [s] is one half of a doubled brace, read from the
    left: the form in which a format template takes braces as text. *)
Fixpoint braces_paired (s : string) : bool :=
  match s with
  | EmptyString => true
  | String a s' =>
      if Ascii.eqb a "{" || Ascii.eqb a "}" then
        match s' with
        | String b s'' => Ascii.eqb b a && braces_paired s''
        | EmptyString => false
        end
      else braces_paired s'
  end.

(** Reading doubled braces back as single ones. *)
Fixpoint unescape_braces (s : string) : string :=
  match s with
  | EmptyString => EmptyString
  | String a s' =>
      if Ascii.eqb a "{" || Ascii.eqb a "}" then
        match s' with
        | String b s'' => String a (unescape_braces s'')
        | EmptyString => String a EmptyString
        end
      else String a (unescape_braces s')
  end.

(** [os.getenv(k)] on the process environment. *)
Definition getenv (environ : gmap string string) (k : string) : option string :=
  environ !! k.

(** [load_dotenv()]: the variables of the [.env] file that the process
    environment does not already set are added to it. *)
Definition load_dotenv (environ dotenv : gmap string string)
  : gmap string string :=
  environ ∪ dotenv.

(** Truthiness of what [os.getenv] returns. *)
Definition env_truthy (v : option string) : bool :=
  match v with
  | Some s => negb (String.eqb s "")
  | None => false
  end.

(** The ["coral"] entry of the connections handed to
    [MultiServerMCPClient] (lines 91-100). *)
Record connection : Type := mkConnection {
  transport : string;
  url : string;
  timeout : pyval;
  sse_read_timeout : pyval
}.

(** Lines 68-100 of [main]: from the environment to the connection, with
    the log lines on the way.  [urlencode] is [urllib.parse.urlencode] on
    the parameter list. *)
Definition connect_config (urlencode : list (string * string) -> string)
  (environ dotenv : gmap string string)
  : list BrowserAgent.event * outcome connection :=
  let environ :=
    match getenv environ "CORAL_ORCHESTRATION_RUNTIME" with
    | None => load_dotenv environ dotenv
    | Some _ => environ
    end in
  let base_url := getenv environ "CORAL_SSE_URL" in
  let agent_id := getenv environ "CORAL_AGENT_ID" in
  if negb (forallb env_truthy [base_url; agent_id]) then
    ([BrowserAgent.EvLog BrowserAgent.ERROR "Missing required environment variables"],
     Raise "CORAL_SSE_URL and CORAL_AGENT_ID must be set")
  else
    let coral_params :=
      [("agentId", default "" agent_id);
       ("agentDescription", "Web agent for web browsing and surfing")] in
    let query_string := urlencode coral_params in
    let coral_server_url := default "" base_url +:+ "?" +:+ query_string in
    let timeout :=
      match getenv environ "TIMEOUT_MS" with
      | Some s => PStr s
      | None => PInt 300
      end in
    ([BrowserAgent.EvLog BrowserAgent.INFO "Connecting to Coral Server: "],
     Ok {| transport := "sse"; url := coral_server_url;
           timeout := timeout; sse_read_timeout := timeout |}).

End BrowserSetup.

(** ** Browser-Agent/test.py *)

Module BrowserAgentTest.

Definition SLEEP_INTERVAL : Z := 2.

(** Lines 25-31: [AgentArgs]. *)
Record AgentArgs : Type := mkArgs {
  input_query : string;
  tool_result : gmap string pyval;
  last_tool_call : string;
  step : Z;
  agent_chain : pyval;
  playwright_mcp_tools_description : string
}.

Inductive event : Type :=
| EvLog (lvl : BrowserAgent.level) (text : string)
| EvSleep (seconds : Z)
| EvProcessAgentQuery (input_query : string) (tool_result : gmap string pyval)
                      (last_tool_call : string) (step : Z) (ret : bool)
| EvAgentExecutor (tool_result : gmap string pyval) (last_tool_call : string)
                  (step : Z) (ret : bool).

(** [process_agent_query(input_query=..., tool_result=..., last_tool_call=...,
    step=..., agent_chain=..., agent_tools_description=..., session=...)]. *)
Definition dispatcher : Type :=
  string -> gmap string pyval -> string -> Z -> outcome pyval.

(** Lines 57-77: the body of the [try] of [process_browsing_tools]. *)
Definition process_browsing_tools_try (process_agent_query : dispatcher)
  (args : AgentArgs) (session : pyval)
  : list event * outcome (gmap string pyval) :=
  if negb (truthy (agent_chain args)) || negb (truthy session) then
    ([EvLog BrowserAgent.ERROR "Browser agent or session not initialized"],
     Ok {[ "error" := PStr "Browser agent or session not initialized" ]})
  else
    let r := process_agent_query (input_query args) (tool_result args)
               (last_tool_call args) (step args) in
    let ev := EvProcessAgentQuery (input_query args) (tool_result args)
                (last_tool_call args) (step args) (returned r) in
    match r with
    | Raise e => ([ev], Raise e)
    | Ok browser_result =>
        ([ev; EvSleep 3;
          EvLog BrowserAgent.INFO "Query processed successfully at step "],
         Ok (<[ "status" := PStr "success" ]>
             (<[ "result" := browser_result ]>
              {[ "step" := PInt (step args + 1) ]})))
    end.

(** Lines 36-83: [process_browsing_tools]. *)
Definition process_browsing_tools (process_agent_query : dispatcher)
  (args : AgentArgs) (session : pyval)
  : list event * outcome (gmap string pyval) :=
  let pre := [EvLog BrowserAgent.INFO "Processing query at step "; EvSleep 2] in
  match process_browsing_tools_try process_agent_query args session with
  | (t, Ok d) => (pre ++ t, Ok d)
  | (t, Raise e) =>
      (pre ++ t ++
       [EvLog BrowserAgent.ERROR "Failed to process browser query at step "],
       Ok (<[ "status" := PStr "error" ]>
           {[ "message" := PStr ("Failed to process browser query: " +:+ e) ]}))
  end.

(** The local variables of [main] that live across iterations
    (lines 238-240). *)
Record loop_state : Type := mkState {
  st_tool_result : gmap string pyval;
  st_last_tool_call : string;
  st_step : Z
}.

Definition initial_state : loop_state :=
  {| st_tool_result := ∅; st_last_tool_call := ""; st_step := 0 |}.

(** [agent_executor.ainvoke({..., "tool_result": ..., "last_tool_call": ...,
    "step": ..., ...})]. *)
Definition executor : Type := gmap string pyval -> string -> Z -> outcome unit.

(** Lines 242-269: one turn of [while True]. *)
Definition iteration (ainvoke : executor) (st : loop_state)
  : list event * loop_state :=
  let r := ainvoke (st_tool_result st) (st_last_tool_call st) (st_step st) in
  let pre := [EvLog BrowserAgent.INFO "Starting new agent invocation";
              EvAgentExecutor (st_tool_result st) (st_last_tool_call st)
                (st_step st) (returned r)] in
  match r with
  | Ok _ =>
      (pre ++ [EvSleep SLEEP_INTERVAL],
       {| st_tool_result := st_tool_result st;
          st_last_tool_call := st_last_tool_call st;
          st_step := st_step st + 1 |})
  | Raise e =>
      (pre ++ [EvLog BrowserAgent.ERROR ("Error in agent loop: " +:+ e);
               EvLog BrowserAgent.ERROR "";
               EvSleep SLEEP_INTERVAL], st)
  end.

(** Lines 241-269: the loop, against the executor's behaviour in its
    successive iterations. *)
Fixpoint main_loop (runs : list executor) (st : loop_state)
  : list event * loop_state :=
  match runs with
  | [] => ([], st)
  | ainvoke :: runs' =>
      let '(t, st') := iteration ainvoke st in
      let '(t', st'') := main_loop runs' st' in
      (t ++ t', st'')
  end.

(** The seconds slept in a trace. *)
Fixpoint slept (t : list event) : Z :=
  match t with
  | [] => 0
  | EvSleep n :: t' => n + slept t'
  | _ :: t' => slept t'
  end.

Definition executor_returns (t : list event) : nat :=
  length (List.filter (fun ev => match ev with
                                 | EvAgentExecutor _ _ _ r => r
                                 | _ => false
                                 end) t).

End BrowserAgentTest.

(** ** Sample inputs for the setup *)

Module SetupSamples.

Import BrowserSetup.

(** A string without braces. *)
Fixpoint brace_free (s : string) : bool :=
  match s with
  | EmptyString => true
  | String a s' => negb (Ascii.eqb a "{" || Ascii.eqb a "}") && brace_free s'
  end.

Definition sample_tools : list tool :=
  [ {| name := "send_message";
       args_json := "{threadId: {type: string}}" |};
    {| name := "wait_for_mentions";
       args_json := "{timeoutMs: {type: integer}}" |} ].

Definition runtime_environ : gmap string string :=
  list_to_map [("CORAL_ORCHESTRATION_RUNTIME", "docker");
               ("CORAL_SSE_URL", "http://localhost:5555/sse");
               ("CORAL_AGENT_ID", "browser_agent")].

Definition sample_urlencode (params : list (string * string)) : string :=
  VoiceAgent.join "&" (map (fun kv => kv.1 +:+ "=" +:+ kv.2) params).

End SetupSamples.

(** ** Voice-Agent: using the manager, and the coordinator's own loop *)

Module VoiceFurther.

Import VoiceAgent.

(** The two methods a user of [ConversationManager] calls. *)
Inductive action : Type :=
| Call (ainvoke : engine) (input_text : pyval)
| Transcript (transcript : pyval).

(** A sequence of method calls on the manager; an exception that leaves
    [call_coral_agent] is the caller's to handle and the sequence goes
    on. *)
Fixpoint perform (actions : list action) (self : ConversationManager)
  : list event * ConversationManager :=
  match actions with
  | [] => ([], self)
  | Call ainvoke input_text :: rest =>
      let '(t, self', _) := call_coral_agent ainvoke self input_text in
      let '(t', self'') := perform rest self' in
      (t ++ t', self'')
  | Transcript transcript :: rest =>
      perform rest (update_transcript self transcript)
  end.

(** The queries of the engine invocations of [t] that returned. *)
Fixpoint answered_queries (t : list event) : list string :=
  match t with
  | [] => []
  | EvInvoke q _ _ true :: t' => q :: answered_queries t'
  | _ :: t' => answered_queries t'
  end.

(** The text of a value that is [None] or a string, stripped. *)
Definition stripped_text (v : pyval) : string :=
  match v with
  | PStr s => strip s
  | _ => ""
  end.

Definition is_text (v : pyval) : bool :=
  match v with
  | PNone | PStr _ => true
  | _ => false
  end.

Definition of_bytes (l : list nat) : string :=
  fold_right (fun n s => String (ascii_of_nat n) s) EmptyString l.

(** U+00A0 NO-BREAK SPACE and U+2003 EM SPACE, in UTF-8. *)
Definition nbsp : string := of_bytes [194; 160]%nat.
Definition em_space : string := of_bytes [226; 128; 131]%nat.

End VoiceFurther.

(** ** Voice-Agent/utils/coral_agent.py: [CoralAgent.run] *)

Module CoralAgentRun.

Import VoiceAgent.

Inductive event : Type :=
| EvInput (ret : bool)
| EvLog (lvl : BrowserAgent.level) (text : string)
| EvInvoke (input_query coral_tools_description history_str : string) (ret : bool)
| EvSleep (seconds : Z).

(** One turn at the prompt: what [input("Input: ")] yields and how the
    engine behaves. *)
Record turn : Type := mkTurn {
  read_input : result string;
  ainvoke : engine
}.

(** Lines 165-170: the [except] clauses of [run]. *)
Definition run_except (t : list event) (self : CoralAgent) (e : pyexc)
  : list event * CoralAgent * result control :=
  match e with
  | ExcKeyboardInterrupt =>
      (t ++ [EvLog BrowserAgent.INFO "Exiting"], self, Done Break)
  | ExcBase _ => (t, self, Throw e)
  | _ =>
      (t ++ [EvLog BrowserAgent.ERROR ("Error: " +:+ exc_str e); EvSleep 1],
       self, Done Continue)
  end.

(** Lines 149-170: one turn of [while True] in [run]. *)
Definition run_iteration (tn : turn) (self : CoralAgent)
  : list event * CoralAgent * result control :=
  match read_input tn with
  | Throw e => run_except [EvInput false] self e
  | Done input_query =>
      if String.eqb (strip input_query) "" then
        ([EvInput true; EvLog BrowserAgent.INFO "Empty input, skipping..."],
         self, Done Continue)
      else
        let hs := history_str (history self) in
        let r := ainvoke tn input_query (tools_description self) hs in
        let t := [EvInput true;
                  EvLog BrowserAgent.INFO "Starting agent invocation";
                  EvInvoke input_query (tools_description self) hs (done r)] in
        match r with
        | Done _ =>
            (t ++ [EvSleep 1; EvSleep 1],
             set_history self (deque_append (history self) input_query),
             Done Continue)
        | Throw e => run_except t self e
        end
  end.

(** Lines 146-170: [run], against the turns at its prompt.  [Done Break]
    when the loop has ended, [Done Continue] when it waits for more
    input. *)
Fixpoint run (turns : list turn) (self : CoralAgent)
  : list event * CoralAgent * result control :=
  match turns with
  | [] => ([], self, Done Continue)
  | tn :: rest =>
      match run_iteration tn self with
      | (t, self', Done Continue) =>
          let '(t', self'', r) := run rest self' in
          (t ++ t', self'', r)
      | (t, self', r) => (t, self', r)
      end
  end.

Fixpoint answered_queries (t : list event) : list string :=
  match t with
  | [] => []
  | EvInvoke q _ _ true :: t' => q :: answered_queries t'
  | _ :: t' => answered_queries t'
  end.

End CoralAgentRun.

(** ** Sample sessions *)

Module VoiceSamples.

Import VoiceAgent.

Definition completed_provider : session_env :=
  {| initialize_conversation := Done tt;
     start_session := Done tt;
     wait_for_session_end := Ends 45%Q (Done (PStr "conv_1"));
     end_session := Done tt;
     not_awaitable := type_error |}.


(** Ctrl+C at the prompt. *)
Definition interrupted_prompt : main_env :=
  {| read_input := Throw ExcKeyboardInterrupt;
     session := silent_provider;
     ainvoke := fun _ _ _ => Done ∅;
     callbacks := fun mgr => mgr |}.

End VoiceSamples.

(** * Properties *)

(** ** The orchestration loop of the browser agent *)

Section BrowserAgentProperties.

Import BrowserAgent.

Context {Result : Type} (str : Result -> string).

Implicit Types (w : world Result) (st : loop_state) (t : list event).

#[local] Arguments py_all : simpl never.

(** Symbolic execution of one iteration. *)
Ltac unfold_body :=
  unfold iteration, try_body, bind, log, sleep, emit, call, lift, get_state,
    incr_step.

Ltac case_outcomes :=
  repeat match goal with
         | |- context [match ?o with Ok _ => _ | Raise _ => _ end] =>
             destruct o eqn:?; simpl
         | |- context [if ?b then _ else _] => destruct b eqn:?; simpl
         | |- context [match ?l with [] => _ | _ :: _ => _ end] =>
             destruct l eqn:?; simpl
         end.

(** Every path through the [try] body that sleeps does so last, so an
    iteration that raises has not slept. *)
Lemma raise_means_no_sleep w st t st' e :
  try_body str w st = (t, st', Raise e) -> sleeps t = [].
Proof.
  unfold_body. case_outcomes; intros [= <- <- <-]; reflexivity.
Qed.

(** The handler of line 177 only logs. *)
Lemma handler_only_logs w st t st' e :
  try_body str w st = (t, st', Raise e) ->
  iteration str w st =
    (t ++ [EvLog ERROR ("Error in agent loop: " +:+ e); EvLog DEBUG "Traceback: "],
     st').
Proof. unfold iteration. intros ->. reflexivity. Qed.

(** An iteration dispatches at most once and replies at most once. *)
Lemma at_most_one_dispatch_and_reply w st :
  (length (dispatches (iteration str w st).1) <= 1)%nat /\
  (length (replies (iteration str w st).1) <= 1)%nat.
Proof.
  unfold_body. case_outcomes; split; simpl; lia.
Qed.

(** The counter moves by the number of dispatches that returned. *)
Lemma iteration_step w st :
  step (iteration str w st).2 =
  (step st + Z.of_nat (successful_dispatches (iteration str w st).1))%Z.
Proof.
  unfold successful_dispatches. unfold_body.
  case_outcomes; try discriminate; lia.
Qed.

Lemma main_loop_cons w ws st :
  main_loop str (w :: ws) st =
  ((iteration str w st).1 ++ (main_loop str ws (iteration str w st).2).1,
   (main_loop str ws (iteration str w st).2).2).
Proof.
  simpl. destruct (iteration str w st) as [t st']. simpl.
  destruct (main_loop str ws st') as [t' st'']. reflexivity.
Qed.

Lemma main_loop_app ws1 ws2 st :
  main_loop str (ws1 ++ ws2) st =
  ((main_loop str ws1 st).1 ++ (main_loop str ws2 (main_loop str ws1 st).2).1,
   (main_loop str ws2 (main_loop str ws1 st).2).2).
Proof.
  revert st. induction ws1 as [|w ws1 IH]; intros st.
  - simpl. destruct (main_loop str ws2 st). reflexivity.
  - rewrite <- app_comm_cons, !main_loop_cons, IH. simpl.
    rewrite app_assoc. reflexivity.
Qed.

Lemma successful_dispatches_app t1 t2 :
  successful_dispatches (t1 ++ t2) =
  (successful_dispatches t1 + successful_dispatches t2)%nat.
Proof.
  unfold successful_dispatches. rewrite List.filter_app, length_app. reflexivity.
Qed.

Lemma main_loop_step ws st :
  step (main_loop str ws st).2 =
  (step st + Z.of_nat (successful_dispatches (main_loop str ws st).1))%Z.
Proof.
  revert st. induction ws as [|w ws IH]; intros st.
  - simpl. unfold successful_dispatches. simpl. lia.
  - rewrite main_loop_cons. simpl. rewrite IH, iteration_step.
    rewrite successful_dispatches_app. lia.
Qed.

(** A well-formed lead message whose dispatch returns is answered exactly
    once, in its thread, mentioning its sender, with [str] of the result. *)
Lemma valid_message_answered_once w st res det resp m rest r :
  get_resources w = Ok res ->
  mcp_resources_details w res = Ok det ->
  wait_for_mentions w 30000 = Ok resp ->
  no_new_messages resp = false ->
  parse_mentions_response w resp = Ok (m :: rest) ->
  py_all [dict_get m "threadId"; dict_get m "senderId"; dict_get m "content"]
    = true ->
  process_agent_query w (dict_get m "content") (tool_result st)
    (last_tool_call st) (step st) = Ok r ->
  replies (iteration str w st).1 =
    [EvSendMessage (dict_get m "threadId") (PStr (str r)) [dict_get m "senderId"]
       (returned (send_message w (dict_get m "threadId") (PStr (str r))
                    [dict_get m "senderId"]))].
Proof.
  intros Hres Hdet Hwait Hnew Hparse Hall Hq.
  assert (Hth : truthy (dict_get m "threadId") = true).
  { unfold py_all in Hall. simpl in Hall.
    destruct (truthy (dict_get m "threadId")); [done|discriminate]. }
  unfold_body. rewrite Hres. simpl. rewrite Hdet, Hwait. simpl.
  rewrite Hnew, Hparse. simpl. rewrite Hth. simpl.
  rewrite Hall. simpl. rewrite Hq. simpl.
  destruct (send_message w _ _ _); reflexivity.
Qed.

(** A well-formed lead message whose dispatch raises is not answered. *)
Lemma dispatch_raise_unanswered w st res det resp m rest e :
  get_resources w = Ok res ->
  mcp_resources_details w res = Ok det ->
  wait_for_mentions w 30000 = Ok resp ->
  no_new_messages resp = false ->
  parse_mentions_response w resp = Ok (m :: rest) ->
  py_all [dict_get m "threadId"; dict_get m "senderId"; dict_get m "content"]
    = true ->
  process_agent_query w (dict_get m "content") (tool_result st)
    (last_tool_call st) (step st) = Raise e ->
  replies (iteration str w st).1 = [] /\ (iteration str w st).2 = st.
Proof.
  intros Hres Hdet Hwait Hnew Hparse Hall Hq.
  assert (Hth : truthy (dict_get m "threadId") = true).
  { unfold py_all in Hall. simpl in Hall.
    destruct (truthy (dict_get m "threadId")); [done|discriminate]. }
  unfold_body. rewrite Hres. simpl. rewrite Hdet, Hwait. simpl.
  rewrite Hnew, Hparse. simpl. rewrite Hth. simpl.
  rewrite Hall. simpl. rewrite Hq. simpl. split; reflexivity.
Qed.

(** C4. When the poll returns a string that contains the hub's
    "No new messages" sentinel, the iteration dispatches nothing, sends
    nothing, and sleeps exactly once, for [SLEEP_INTERVAL] = 1 second, as
    its last action before the next iteration polls again. *)
Theorem no_new_messages_only_sleeps w st res det s :
  get_resources w = Ok res ->
  mcp_resources_details w res = Ok det ->
  wait_for_mentions w 30000 = Ok (PStr s) ->
  str_contains "No new messages" s = true ->
  let '(t, st') := iteration str w st in
  dispatches t = [] /\ replies t = [] /\
  sleeps t = [EvSleep 1] /\ last t = Some (EvSleep SLEEP_INTERVAL) /\ st' = st.
Proof.
  intros Hres Hdet Hwait Hs.
  unfold_body. rewrite Hres. simpl. rewrite Hdet, Hwait. simpl.
  rewrite Hs. simpl. repeat split.
Qed.

(** C10. When the parsed batch is empty, or its lead message has no
    (or an empty) threadId, the iteration sends no reply, dispatches
    nothing, sleeps one interval as its last action and leaves the state
    as it was, whatever senderId the message carries. *)
Theorem no_thread_dropped_silently w st res det resp messages :
  get_resources w = Ok res ->
  mcp_resources_details w res = Ok det ->
  wait_for_mentions w 30000 = Ok resp ->
  no_new_messages resp = false ->
  parse_mentions_response w resp = Ok messages ->
  (messages = [] \/
   exists m rest, messages = m :: rest /\ truthy (dict_get m "threadId") = false) ->
  let '(t, st') := iteration str w st in
  replies t = [] /\ dispatches t = [] /\
  sleeps t = [EvSleep SLEEP_INTERVAL] /\ last t = Some (EvSleep SLEEP_INTERVAL) /\
  st' = st.
Proof.
  intros Hres Hdet Hwait Hnew Hparse Hlead.
  assert (Hno : no_thread messages = true).
  { destruct Hlead as [-> | (m & rest & -> & Hth)]; simpl; [done|].
    rewrite Hth. reflexivity. }
  unfold_body. rewrite Hres. simpl. rewrite Hdet, Hwait. simpl.
  rewrite Hnew, Hparse. simpl. rewrite Hno. simpl. repeat split.
Qed.

(** C2, amended. When the lead message has a threadId but its senderId or
    its content is missing or empty, the iteration sends exactly one
    reply, with content "Error: Missing message fields", to the message's
    thread, mentioning the message's senderId, and dispatches nothing. *)
Theorem missing_fields_replied_once w st res det resp m rest :
  get_resources w = Ok res ->
  mcp_resources_details w res = Ok det ->
  wait_for_mentions w 30000 = Ok resp ->
  no_new_messages resp = false ->
  parse_mentions_response w resp = Ok (m :: rest) ->
  truthy (dict_get m "threadId") = true ->
  (truthy (dict_get m "senderId") = false \/
   truthy (dict_get m "content") = false) ->
  let t := (iteration str w st).1 in
  replies t =
    [EvSendMessage (dict_get m "threadId") (PStr "Error: Missing message fields")
       [dict_get m "senderId"]
       (returned (send_message w (dict_get m "threadId")
                    (PStr "Error: Missing message fields")
                    [dict_get m "senderId"]))] /\
  dispatches t = [].
Proof.
  intros Hres Hdet Hwait Hnew Hparse Hth Hmiss.
  assert (Hall : py_all [dict_get m "threadId"; dict_get m "senderId";
                         dict_get m "content"] = false).
  { unfold py_all. simpl. rewrite Hth. destruct Hmiss as [-> | ->]; simpl; [done|].
    apply andb_false_r. }
  unfold_body. rewrite Hres. simpl. rewrite Hdet, Hwait. simpl.
  rewrite Hnew, Hparse. simpl. rewrite Hth. simpl. rewrite Hall. simpl.
  destruct (send_message w _ _ _); split; reflexivity.
Qed.

(** C5. When the poll yields the batch [m :: rest], the iteration
    validates, dispatches and answers [m] and nothing else.  It behaves
    exactly as on the batch [[m]].  With the three fields of [m] present
    it dispatches [m]'s content, exactly once, and, when the dispatch
    returns [r], sends exactly one reply: [str r], to [m]'s thread,
    mentioning [m]'s sender (none when the dispatch raises).  With a
    threadId but another field missing it dispatches nothing and sends
    exactly the missing-fields reply, to [m]'s thread and sender.
    Without a threadId it dispatches nothing and sends nothing.  So no
    message of [rest] is dispatched or answered. *)
Theorem only_lead_message_processed w st res det resp m rest :
  get_resources w = Ok res ->
  mcp_resources_details w res = Ok det ->
  wait_for_mentions w 30000 = Ok resp ->
  no_new_messages resp = false ->
  parse_mentions_response w resp = Ok (m :: rest) ->
  let t := (iteration str w st).1 in
  let thread_id := dict_get m "threadId" in
  let sender_id := dict_get m "senderId" in
  let content := dict_get m "content" in
  iteration str (with_batch w [m]) st = iteration str w st /\
  if py_all [thread_id; sender_id; content] then
    let o := process_agent_query w content (tool_result st)
               (last_tool_call st) (step st) in
    dispatches t =
      [EvProcessAgentQuery content (tool_result st) (last_tool_call st)
         (step st) (returned o)] /\
    replies t =
      match o with
      | Ok r =>
          [EvSendMessage thread_id (PStr (str r)) [sender_id]
             (returned (send_message w thread_id (PStr (str r)) [sender_id]))]
      | Raise _ => []
      end
  else if truthy thread_id then
    dispatches t = [] /\
    replies t =
      [EvSendMessage thread_id (PStr "Error: Missing message fields")
         [sender_id]
         (returned (send_message w thread_id
                      (PStr "Error: Missing message fields") [sender_id]))]
  else dispatches t = [] /\ replies t = [].
Proof.
  intros Hres Hdet Hwait Hnew Hparse. simpl. split.
  - unfold_body. simpl. rewrite Hres. simpl. rewrite Hdet, Hwait. simpl.
    rewrite Hnew, Hparse. reflexivity.
  - destruct (py_all _) eqn:Hall.
    + assert (Hth : truthy (dict_get m "threadId") = true).
      { unfold py_all in Hall. simpl in Hall.
        destruct (truthy (dict_get m "threadId")); [done|discriminate]. }
      unfold_body. rewrite Hres. simpl. rewrite Hdet, Hwait. simpl.
      rewrite Hnew, Hparse. simpl. rewrite Hth. simpl. rewrite Hall. simpl.
      destruct (process_agent_query w _ _ _ _); simpl; [|split; reflexivity].
      destruct (send_message w _ _ _); split; reflexivity.
    + destruct (truthy (dict_get m "threadId")) eqn:Hth.
      * unfold_body. rewrite Hres. simpl. rewrite Hdet, Hwait. simpl.
        rewrite Hnew, Hparse. simpl. rewrite Hth. simpl. rewrite Hall. simpl.
        destruct (send_message w _ _ _); split; reflexivity.
      * unfold_body. rewrite Hres. simpl. rewrite Hdet, Hwait. simpl.
        rewrite Hnew, Hparse. simpl. rewrite Hth. simpl. split; reflexivity.
Qed.

(** C8. The step counter starts at 0; over any run of the loop it grows
    by exactly the number of dispatches that returned (a dispatch that
    raises adds nothing); it never decreases as the run is extended, and
    one iteration adds at most one. *)
Theorem step_counter_monotone :
  step initial_state = 0%Z /\
  (forall (ws : list (world Result)) st,
     step (main_loop str ws st).2 =
     (step st + Z.of_nat (successful_dispatches (main_loop str ws st).1))%Z) /\
  (forall (ws ws' : list (world Result)) st,
     (step (main_loop str ws st).2 <= step (main_loop str (ws ++ ws') st).2)%Z) /\
  (forall w st,
     step (iteration str w st).2 =
     (step st + Z.of_nat (successful_dispatches (iteration str w st).1))%Z /\
     (successful_dispatches (iteration str w st).1 <= 1)%nat).
Proof.
  split; [reflexivity|]. split; [apply main_loop_step|]. split.
  - intros ws ws' st. rewrite main_loop_app. simpl.
    rewrite (main_loop_step ws'). lia.
  - intros w st. split; [apply iteration_step|].
    unfold successful_dispatches. unfold_body. case_outcomes; lia.
Qed.

End BrowserAgentProperties.

Section BrowserAgentScenarios.

Import BrowserAgent.

Lemma no_new_messages_only_sleeps_witness :
  let '(t, st') :=
    iteration id (hub (PStr "No new messages") [] (Ok "unused")) initial_state in
  dispatches t = [] /\ replies t = [] /\
  sleeps t = [EvSleep 1] /\ last t = Some (EvSleep SLEEP_INTERVAL) /\
  st' = initial_state.
Proof.
  exact (no_new_messages_only_sleeps id
           (hub (PStr "No new messages") [] (Ok "unused")) initial_state
           PNone PNone "No new messages" eq_refl eq_refl eq_refl eq_refl).
Defined.

Lemma no_thread_dropped_silently_witness :
  let '(t, st') :=
    iteration id (hub (PList []) [message_without_thread] (Ok "unused"))
      initial_state in
  replies t = [] /\ dispatches t = [] /\
  sleeps t = [EvSleep SLEEP_INTERVAL] /\ last t = Some (EvSleep SLEEP_INTERVAL) /\
  st' = initial_state.
Proof.
  apply (no_thread_dropped_silently id
           (hub (PList []) [message_without_thread] (Ok "unused")) initial_state
           PNone PNone (PList []) [message_without_thread]);
    try reflexivity.
  right. exists message_without_thread, []. split; reflexivity.
Defined.

Lemma missing_fields_replied_once_witness :
  let t := (iteration id (hub (PList []) [message_without_content] (Ok "unused"))
              initial_state).1 in
  replies t =
    [EvSendMessage (PStr "t1") (PStr "Error: Missing message fields")
       [PStr "a1"] true] /\
  dispatches t = [].
Proof.
  apply (missing_fields_replied_once id
           (hub (PList []) [message_without_content] (Ok "unused")) initial_state
           PNone PNone (PList []) message_without_content []);
    try reflexivity.
  right. reflexivity.
Defined.

(** C2 as stated fails: a lead message that lacks its threadId, with the
    senderId present, is missing a field and gets no reply at all. *)
Lemma missing_thread_gets_no_reply :
  let m := message_without_thread in
  let t := (iteration id (hub (PList []) [m] (Ok "unused")) initial_state).1 in
  py_all [dict_get m "threadId"; dict_get m "senderId"; dict_get m "content"]
    = false /\
  dict_get m "senderId" = PStr "a1" /\
  length (replies t) <> 1%nat /\ replies t = [].
Proof. vm_compute. repeat split; discriminate. Qed.

Lemma only_lead_message_processed_witness :
  let w := hub (PList []) [well_formed_message; second_message]
             (Ok "Loaded google.com") in
  let t := (iteration id w initial_state).1 in
  iteration id (with_batch w [well_formed_message]) initial_state =
    iteration id w initial_state /\
  dispatches t =
    [EvProcessAgentQuery (PStr "go to google") PNone PNone 0 true] /\
  replies t =
    [EvSendMessage (PStr "t1") (PStr "Loaded google.com") [PStr "a1"] true].
Proof.
  exact (only_lead_message_processed id
           (hub (PList []) [well_formed_message; second_message]
              (Ok "Loaded google.com")) initial_state
           PNone PNone (PList []) well_formed_message [second_message]
           eq_refl eq_refl eq_refl eq_refl eq_refl).
Defined.

(** C1, at the input where it fails: a well-formed message whose dispatch
    raises is dispatched once and never answered; the exception is only
    logged. *)
Theorem dispatch_raises_sender_unanswered :
  let w := hub (PList []) [well_formed_message] (Raise "engine failure") in
  let t := (iteration id w initial_state).1 in
  dispatches t =
    [EvProcessAgentQuery (PStr "go to google") PNone PNone 0 false] /\
  replies t = [] /\
  last t = Some (EvLog DEBUG "Traceback: ").
Proof. vm_compute. repeat split. Qed.

(** C3, at the input where it fails: when the poll raises, the handler
    logs the error and the traceback and the iteration ends there; no
    sleep separates it from the next poll. *)
Theorem poll_raises_no_backoff :
  (iteration id hub_down initial_state).1 =
    [EvLog INFO "***********************Waiting for Mentions***********************";
     EvGetResources true;
     EvWaitForMentions 30000 false;
     EvLog ERROR "Error in agent loop: hub unreachable";
     EvLog DEBUG "Traceback: "] /\
  sleeps (main_loop id [hub_down; hub_down] initial_state).1 = [] /\
  length (List.filter is_poll (main_loop id [hub_down; hub_down] initial_state).1)
    = 2%nat.
Proof. vm_compute. repeat split. Qed.

End BrowserAgentScenarios.

(** ** The coordinator's bounded history *)

Section VoiceAgentProperties.

Import VoiceAgent.

Lemma length_lastn {A} n (l : list A) : (length (lastn n l) <= n)%nat.
Proof. unfold lastn. rewrite length_drop. lia. Qed.

(** Appending to a bounded deque that holds the [n] most recent items of
    [l] leaves it holding the [n] most recent items of [l ++ [x]]. *)
Lemma deque_append_lastn {A} n (d : deque A) l x :
  maxlen d = Some n ->
  items d = lastn n l ->
  maxlen (deque_append d x) = Some n /\
  items (deque_append d x) = lastn n (l ++ [x]).
Proof.
  intros Hmax Hitems. unfold deque_append. simpl. rewrite Hmax, Hitems.
  split; [reflexivity|]. unfold lastn.
  rewrite !length_app, length_drop. simpl.
  destruct (Nat.ltb_spec n (length l - (length l - n) + 1)) as [Hlt | Hge].
  - rewrite <- drop_app_le by lia. rewrite drop_drop. f_equal. lia.
  - replace (length l - n)%nat with 0%nat by lia.
    replace (length l + 1 - n)%nat with 0%nat by lia. reflexivity.
Qed.

Lemma appends_lastn {A} n (qs : list A) :
  maxlen (fold_left deque_append qs (deque_new (Some n))) = Some n /\
  items (fold_left deque_append qs (deque_new (Some n))) = lastn n qs.
Proof.
  induction qs as [|q qs IH] using rev_ind.
  - split; reflexivity.
  - rewrite fold_left_app. simpl. destruct IH as [Hmax Hitems].
    apply deque_append_lastn; assumption.
Qed.

(** C6. Starting from the empty [deque(maxlen=3)] of a new [CoralAgent],
    after any sequence of appends the history holds at most 3 items, and
    they are the 3 most recent queries in insertion order; appending a
    4th item to a full history [a; b; c] drops exactly [a], the oldest,
    and keeps [b; c] followed by the new item. *)
Theorem bounded_history_fifo :
  (forall tools (qs : list string),
     let h := fold_left deque_append qs (history (CoralAgent_init tools)) in
     (length (items h) <= 3)%nat /\ items h = lastn 3 qs) /\
  (forall a b c d : string,
     items (fold_left deque_append [a; b; c] (deque_new (Some 3%nat)))
       = [a; b; c] /\
     items (deque_append {| maxlen := Some 3%nat; items := [a; b; c] |} d)
       = [b; c; d]).
Proof.
  split.
  - intros tools qs. simpl.
    destruct (appends_lastn 3 qs) as [_ ->].
    split; [apply length_lastn | reflexivity].
  - intros a b c d. split; reflexivity.
Qed.

(** C7. When [call_coral_agent] has a coordinator and a usable input [q],
    it invokes the engine once on [q]; if the engine returns, [q] is
    appended to the history (and nothing else changes); if the engine
    raises, the manager, and so the history, is left as it was. *)
Theorem history_appended_iff_dispatch_succeeds
  (engine_call : engine) (self : ConversationManager) (ca : CoralAgent)
  (input_text : pyval) (q : string) :
  coral_agent self = Some ca ->
  coral_agent_input self input_text = Done (Some q) ->
  let o := engine_call q (tools_description ca) (history_str (history ca)) in
  let '(t, self', _) := call_coral_agent engine_call self input_text in
  t = [EvInvoke q (tools_description ca) (history_str (history ca)) (done o)] /\
  match o with
  | Done _ =>
      self' = {| latest_transcript := latest_transcript self;
                 coral_agent :=
                   Some {| history := deque_append (history ca) q;
                           tools_description := tools_description ca |} |}
  | Throw _ => self' = self
  end.
Proof.
  intros Hca Hin. unfold call_coral_agent. rewrite Hca, Hin.
  destruct (engine_call q _ _) as [res | e]; simpl.
  - split; reflexivity.
  - destruct (is_Exception e); split; reflexivity.
Qed.

(** Without a usable input nothing is invoked and the manager is
    unchanged. *)
Lemma no_input_no_change (engine_call : engine) self input_text :
  (forall q, coral_agent_input self input_text <> Done (Some q)) ->
  (call_coral_agent engine_call self input_text).1 = ([], self).
Proof.
  unfold call_coral_agent. intros Hno.
  destruct (coral_agent self); [|reflexivity].
  destruct (coral_agent_input self input_text) as [[q|]|e];
    [destruct (Hno q); reflexivity | reflexivity | reflexivity].
Qed.

(** ** The voice session *)

(** When the operator interrupts the session, the handler issues
    [end_session] once, line 114 drops the [KeyboardInterrupt], and the
    call returns to [main]. *)
Lemma interrupt_ends_session (env : session_env) seconds :
  initialize_conversation env = Done tt ->
  start_session env = Done tt ->
  wait_for_session_end env = Interrupted seconds ->
  end_session env = Done tt ->
  run_voice_session env =
    ([EvInitConversation true; EvSignal; EvStartSession true;
      EvWaitForSessionEnd; EvEndSession true;
      EvPrint (newline +:+ "Voice session terminated.")],
     Some (Done tt)).
Proof.
  intros Hinit Hstart Hwait Hend.
  unfold run_voice_session, signal_handler.
  rewrite Hinit, Hstart, Hwait, Hend. reflexivity.
Qed.

(** How long the session lasts has no influence on what the call does:
    line 108 sets no deadline on the wait. *)
Lemma duration_is_irrelevant (env : session_env) seconds seconds' r :
  wait_for_session_end env = Ends seconds r ->
  run_voice_session env =
  run_voice_session
    {| initialize_conversation := initialize_conversation env;
       start_session := start_session env;
       wait_for_session_end := Ends seconds' r;
       end_session := end_session env;
       not_awaitable := not_awaitable env |}.
Proof.
  intros Hwait. unfold run_voice_session, asyncio_wait_for, except_clauses.
  simpl. rewrite Hwait. reflexivity.
Qed.

(** C9, at the inputs where it fails.  A session that the provider ends
    after 300 seconds is waited for in full: the call of line 108 blocks
    until then, the value it returns cannot be awaited, and the session
    ends in the [Exception] branch, with the error printed and
    [end_session] issued once; the timed-out branch is not taken.  A
    session that the provider never ends is never left. *)
Theorem voice_session_never_times_out :
  run_voice_session late_provider =
    ([EvInitConversation true; EvSignal; EvStartSession true;
      EvWaitForSessionEnd; EvWaitFor 120;
      EvPrint ("Error in voice session: " +:+ type_error);
      EvEndSession true],
     Some (Done tt)) /\
  ~ In (EvPrint "Voice session timed out after 2 minutes.")
       (run_voice_session late_provider).1 /\
  run_voice_session silent_provider =
    ([EvInitConversation true; EvSignal; EvStartSession true;
      EvWaitForSessionEnd],
     None).
Proof.
  split; [reflexivity|]. split; [|reflexivity].
  vm_compute. intuition discriminate.
Qed.

Lemma history_appended_iff_dispatch_succeeds_witness :
  let '(t, self', _) :=
    call_coral_agent (fun _ _ _ => Done ∅) (ConversationManager_init "tools")
      (PStr "  click store ") in
  t = [EvInvoke "click store" "tools" "None" true] /\
  self' = {| latest_transcript := PNone;
             coral_agent :=
               Some {| history := {| maxlen := Some 3%nat;
                                     items := ["click store"] |};
                       tools_description := "tools" |} |}.
Proof.
  exact (history_appended_iff_dispatch_succeeds (fun _ _ _ => Done ∅)
           (ConversationManager_init "tools") (CoralAgent_init "tools")
           (PStr "  click store ") "click store" eq_refl eq_refl).
Defined.

End VoiceAgentProperties.

(** ** More on the orchestration loop *)

Section BrowserLoopFurther.

Import BrowserAgent BrowserTrace.

Context {Result : Type} (str : Result -> string).

Implicit Types (w : world Result) (st : loop_state) (t : list event).

#[local] Arguments py_all : simpl never.

Ltac exec_iteration :=
  unfold iteration, try_body, bind, log, sleep, emit, call, lift, get_state,
    incr_step.

Ltac split_cases :=
  repeat match goal with
         | |- context [match ?o with Ok _ => _ | Raise _ => _ end] =>
             destruct o eqn:?; simpl
         | |- context [if ?b then _ else _] => destruct b eqn:?; simpl
         | |- context [match ?l with [] => _ | _ :: _ => _ end] =>
             destruct l eqn:?; simpl
         end.

(** X1.  When the lead message has a non-empty threadId, senderId and content
    and the dispatch returns [r], the iteration dispatches the content
    once, with the current step, sends exactly one reply, to the
    message's thread, with content [str r], mentioning the message's
    sender, and moves the step counter by one. *)
Theorem well_formed_message_answered_once w st res det resp m rest r :
  get_resources w = Ok res ->
  mcp_resources_details w res = Ok det ->
  wait_for_mentions w 30000 = Ok resp ->
  no_new_messages resp = false ->
  parse_mentions_response w resp = Ok (m :: rest) ->
  py_all [dict_get m "threadId"; dict_get m "senderId"; dict_get m "content"]
    = true ->
  process_agent_query w (dict_get m "content") (tool_result st)
    (last_tool_call st) (step st) = Ok r ->
  let t := (iteration str w st).1 in
  dispatches t =
    [EvProcessAgentQuery (dict_get m "content") (tool_result st)
       (last_tool_call st) (step st) true] /\
  replies t =
    [EvSendMessage (dict_get m "threadId") (PStr (str r)) [dict_get m "senderId"]
       (returned (send_message w (dict_get m "threadId") (PStr (str r))
                    [dict_get m "senderId"]))] /\
  step (iteration str w st).2 = (step st + 1)%Z.
Proof.
  intros Hres Hdet Hwait Hnew Hparse Hall Hq.
  assert (Hth : truthy (dict_get m "threadId") = true).
  { unfold py_all in Hall. simpl in Hall.
    destruct (truthy (dict_get m "threadId")); [done|discriminate]. }
  exec_iteration. rewrite Hres. simpl. rewrite Hdet, Hwait. simpl.
  rewrite Hnew, Hparse. simpl. rewrite Hth. simpl.
  rewrite Hall. simpl. rewrite Hq. simpl.
  destruct (send_message w _ _ _); repeat split.
Qed.

(** X2.  An iteration sleeps exactly when its [try] body completes: then it
    sleeps once, for [SLEEP_INTERVAL], as its last action; when the body
    raises there is no sleep and the last action is the traceback log. *)
Theorem sleeps_iff_no_exception w st :
  sleeps (iteration str w st).1 =
    (if returned (try_body str w st).2 then [EvSleep SLEEP_INTERVAL] else []) /\
  last (iteration str w st).1 =
    (if returned (try_body str w st).2 then Some (EvSleep SLEEP_INTERVAL)
     else Some (EvLog DEBUG "Traceback: ")).
Proof.
  exec_iteration. split_cases; simpl in *; try discriminate; split; reflexivity.
Qed.

(** One iteration leaves [tool_result] and [last_tool_call] alone. *)
Lemma iteration_keeps_tool_state w st :
  tool_result (iteration str w st).2 = tool_result st /\
  last_tool_call (iteration str w st).2 = last_tool_call st /\
  Forall (fun ev => match ev with
                    | EvProcessAgentQuery _ tr lc _ _ =>
                        tr = tool_result st /\ lc = last_tool_call st
                    | _ => True
                    end) (iteration str w st).1.
Proof.
  exec_iteration. split_cases; repeat split; repeat constructor.
Qed.

(** X3.  The loop never updates [tool_result] and [last_tool_call]: they keep
    their values over any run, and every dispatch is handed exactly
    those values. *)
Theorem tool_state_never_updated (ws : list (world Result)) st :
  tool_result (main_loop str ws st).2 = tool_result st /\
  last_tool_call (main_loop str ws st).2 = last_tool_call st /\
  Forall (fun ev => match ev with
                    | EvProcessAgentQuery _ tr lc _ _ =>
                        tr = tool_result st /\ lc = last_tool_call st
                    | _ => True
                    end) (main_loop str ws st).1.
Proof.
  revert st. induction ws as [|w ws IH]; intros st.
  - simpl. repeat split. constructor.
  - rewrite main_loop_cons. simpl.
    destruct (iteration_keeps_tool_state w st) as (Htr & Hlc & Hall).
    destruct (IH (iteration str w st).2) as (Htr' & Hlc' & Hall').
    rewrite Htr, Hlc in *. repeat split; try assumption.
    apply Forall_app. split; assumption.
Qed.

(** X4.  Every [send_message] of an iteration goes to a thread id that is
    present and non-empty, mentions exactly one id, and carries either
    the missing-fields error text or [str] of a dispatch result. *)
Theorem replies_well_addressed w st :
  Forall (fun ev => match ev with
                    | EvSendMessage th c ms _ =>
                        truthy th = true /\
                        (exists sender, ms = [sender]) /\
                        (c = PStr "Error: Missing message fields" \/
                         exists r, c = PStr (str r))
                    | _ => True
                    end) (iteration str w st).1.
Proof.
  exec_iteration.
  destruct (get_resources w); simpl; [|repeat constructor].
  destruct (mcp_resources_details w a); simpl; [|repeat constructor].
  destruct (wait_for_mentions w 30000); simpl; [|repeat constructor].
  destruct (no_new_messages a1); simpl; [repeat constructor|].
  destruct (parse_mentions_response w a1) as [[|m rest]|]; simpl;
    [repeat constructor| |repeat constructor].
  destruct (truthy (dict_get m "threadId")) eqn:Hth; simpl;
    [|repeat constructor].
  split_cases;
    repeat (apply Forall_cons; split;
            [first [exact I
                   | split; [exact Hth
                            | split; [eexists; reflexivity
                                     | first [left; reflexivity
                                             | right; eexists; reflexivity]]]]
            |]);
    apply List.Forall_nil.
Qed.

(** X5.  The engine is only ever given a query that is present and
    non-empty. *)
Theorem dispatched_query_non_empty w st :
  Forall (fun ev => match ev with
                    | EvProcessAgentQuery q _ _ _ _ => truthy q = true
                    | _ => True
                    end) (iteration str w st).1.
Proof.
  exec_iteration.
  destruct (get_resources w); simpl; [|repeat constructor].
  destruct (mcp_resources_details w a); simpl; [|repeat constructor].
  destruct (wait_for_mentions w 30000); simpl; [|repeat constructor].
  destruct (no_new_messages a1); simpl; [repeat constructor|].
  destruct (parse_mentions_response w a1) as [[|m rest]|]; simpl;
    [repeat constructor| |repeat constructor].
  destruct (negb (truthy (dict_get m "threadId"))); simpl;
    [repeat constructor|].
  destruct (py_all _) eqn:Hall; simpl.
  - assert (Hc : truthy (dict_get m "content") = true).
    { unfold py_all in Hall. simpl in Hall.
      destruct (truthy (dict_get m "threadId")); [|discriminate].
      destruct (truthy (dict_get m "senderId")); [|discriminate].
      destruct (truthy (dict_get m "content")); [done|discriminate]. }
    split_cases; repeat constructor; assumption.
  - split_cases; repeat constructor.
Qed.

Lemma steps_numbered_app n t1 t2 :
  steps_numbered n (t1 ++ t2) <->
  steps_numbered n t1 /\
  steps_numbered (n + Z.of_nat (successful_dispatches t1)) t2.
Proof.
  revert n. induction t1 as [|ev t1 IH]; intros n.
  - simpl. unfold successful_dispatches. simpl.
    rewrite Z.add_0_r. tauto.
  - destruct ev as [| | |q tr lc k b| |]; simpl; try apply IH.
    unfold successful_dispatches in *. simpl. destruct b; simpl.
    + rewrite IH.
      replace (n + 1 + Z.of_nat (length (List.filter is_dispatch_ok t1)))%Z
        with (n + Z.of_nat (S (length (List.filter is_dispatch_ok t1))))%Z
        by lia.
      tauto.
    + rewrite IH. tauto.
Qed.

Lemma iteration_steps_numbered w st :
  steps_numbered (step st) (iteration str w st).1.
Proof.
  exec_iteration. split_cases; repeat split.
Qed.

(** X6.  Over any run, the [step] argument of each dispatch is the starting
    count plus the number of dispatches that returned before it. *)
Theorem dispatch_steps_count_up (ws : list (world Result)) st :
  steps_numbered (step st) (main_loop str ws st).1.
Proof.
  revert st. induction ws as [|w ws IH]; intros st.
  - exact I.
  - rewrite main_loop_cons. simpl. apply steps_numbered_app. split.
    + apply iteration_steps_numbered.
    + rewrite <- iteration_step. apply IH.
Qed.

(** X7.  When listing the hub's resources fails, directly or in
    [mcp_resources_details], the iteration never polls: it makes no
    dispatch, sends nothing and does not sleep. *)
Theorem resources_failure_blocks_poll w st e :
  get_resources w = Raise e \/
  (exists res, get_resources w = Ok res /\ mcp_resources_details w res = Raise e) ->
  let t := (iteration str w st).1 in
  List.filter is_poll t = [] /\ dispatches t = [] /\ replies t = [] /\
  sleeps t = [] /\
  In (EvLog ERROR ("Error in agent loop: " +:+ e)) t.
Proof.
  intros [Hres | (res & Hres & Hdet)]; exec_iteration; rewrite Hres; simpl.
  - repeat split. auto.
  - rewrite Hdet. simpl. repeat split. auto.
Qed.

End BrowserLoopFurther.

Section BrowserLoopFurtherScenarios.

Import BrowserAgent BrowserTrace.

Lemma well_formed_message_answered_once_witness :
  let w := hub (PList []) [well_formed_message] (Ok "Loaded google.com") in
  let t := (iteration id w initial_state).1 in
  dispatches t =
    [EvProcessAgentQuery (dict_get well_formed_message "content")
       PNone PNone 0 true] /\
  replies t =
    [EvSendMessage (dict_get well_formed_message "threadId")
       (PStr (id "Loaded google.com"))
       [dict_get well_formed_message "senderId"]
       (returned (send_message w (dict_get well_formed_message "threadId")
                    (PStr (id "Loaded google.com"))
                    [dict_get well_formed_message "senderId"]))] /\
  step (iteration id w initial_state).2 = (0 + 1)%Z.
Proof.
  exact (well_formed_message_answered_once id
           (hub (PList []) [well_formed_message] (Ok "Loaded google.com"))
           initial_state PNone PNone (PList []) well_formed_message []
           "Loaded google.com" eq_refl eq_refl eq_refl eq_refl eq_refl eq_refl
           eq_refl).
Defined.

Lemma resources_failure_blocks_poll_witness :
  let t := (iteration id hub_without_resources initial_state).1 in
  List.filter is_poll t = [] /\ dispatches t = [] /\ replies t = [] /\
  sleeps t = [] /\
  In (EvLog ERROR ("Error in agent loop: " +:+ "resources unavailable")) t.
Proof.
  apply (resources_failure_blocks_poll id hub_without_resources initial_state
           "resources unavailable").
  left. reflexivity.
Defined.

End BrowserLoopFurtherScenarios.

(** ** Tool descriptions and configuration of the browser agent *)

Section BrowserSetupProperties.

Import BrowserSetup SetupSamples.

#[local] Arguments String.append !_ _ /.

Lemma append_assoc (s1 s2 s3 : string) :
  (s1 +:+ s2) +:+ s3 = s1 +:+ (s2 +:+ s3).
Proof. induction s1 as [|a s1 IH]; simpl; [reflexivity|]. by rewrite IH. Qed.

Lemma replace_char_app old new s1 s2 :
  replace_char old new (s1 +:+ s2) =
  replace_char old new s1 +:+ replace_char old new s2.
Proof.
  induction s1 as [|a s1 IH]; simpl; [reflexivity|].
  rewrite IH. destruct (Ascii.eqb a old); simpl; [|reflexivity].
  by rewrite append_assoc.
Qed.

(** The two passes of [escape_braces] amount to one pass that doubles
    each brace. *)
Lemma escape_braces_cons a s :
  escape_braces (String a s) =
  (if Ascii.eqb a "{" then "{{"
   else if Ascii.eqb a "}" then "}}" else String a EmptyString)
  +:+ escape_braces s.
Proof.
  unfold escape_braces. simpl.
  destruct (Ascii.eqb a "{") eqn:Hopen.
  - apply Ascii.eqb_eq in Hopen. subst a. reflexivity.
  - simpl. destruct (Ascii.eqb a "}"); reflexivity.
Qed.

Lemma unescape_escape s : unescape_braces (escape_braces s) = s.
Proof.
  induction s as [|a s IH]; [reflexivity|].
  rewrite escape_braces_cons.
  destruct (Ascii.eqb a "{") eqn:Hopen.
  - apply Ascii.eqb_eq in Hopen. subst a. simpl. by rewrite IH.
  - destruct (Ascii.eqb a "}") eqn:Hclose.
    + apply Ascii.eqb_eq in Hclose. subst a. simpl. by rewrite IH.
    + simpl. rewrite Hopen, Hclose. simpl. by rewrite IH.
Qed.

(** X8.  Escaping loses nothing: two schemas with the same escaped text are
    the same schema. *)
Theorem escape_braces_injective s1 s2 :
  escape_braces s1 = escape_braces s2 -> s1 = s2.
Proof.
  intros Heq. rewrite <- (unescape_escape s1), <- (unescape_escape s2).
  by rewrite Heq.
Qed.

Lemma escape_braces_injective_witness :
  "{a: {}}" = "{a: {}}".
Proof. apply (escape_braces_injective "{a: {}}" "{a: {}}"). reflexivity. Defined.

(** In an escaped schema every brace is doubled. *)
Theorem escape_braces_paired s : braces_paired (escape_braces s) = true.
Proof.
  induction s as [|a s IH]; [reflexivity|].
  rewrite escape_braces_cons.
  destruct (Ascii.eqb a "{") eqn:Hopen.
  - simpl. exact IH.
  - destruct (Ascii.eqb a "}") eqn:Hclose.
    + simpl. exact IH.
    + simpl. rewrite Hopen, Hclose. simpl. exact IH.
Qed.

(** Text whose braces are paired can be followed by any text without
    disturbing the pairing of either. *)
Lemma braces_paired_app s1 s2 :
  braces_paired s1 = true ->
  braces_paired (s1 +:+ s2) = braces_paired s2.
Proof.
  assert (H : forall s,
             (braces_paired s = true ->
              braces_paired (s +:+ s2) = braces_paired s2) /\
             (forall a, braces_paired (String a s) = true ->
                        braces_paired (String a s +:+ s2) = braces_paired s2)).
  { induction s as [|b s [IH1 IH2]].
    - split; [reflexivity|]. intros a. simpl.
      destruct (Ascii.eqb a "{" || Ascii.eqb a "}"); [discriminate|].
      destruct s2; reflexivity.
    - split; [apply IH2|]. intros a Ha.
      change (String a (String b s) +:+ s2) with (String a (String b (s +:+ s2))).
      simpl in Ha |- *.
      destruct (Ascii.eqb a "{" || Ascii.eqb a "}").
      + apply andb_true_iff in Ha as [-> Hs]. simpl. by apply IH1.
      + by apply (IH2 b). }
  apply H.
Qed.

Lemma brace_free_paired s : brace_free s = true -> braces_paired s = true.
Proof.
  induction s as [|a s IH]; simpl; [reflexivity|].
  intros H. apply andb_true_iff in H as [Ha Hs].
  apply negb_true_iff in Ha. rewrite Ha. by apply IH.
Qed.

Lemma join_newline_paired parts :
  Forall (fun p => braces_paired p = true) parts ->
  braces_paired (VoiceAgent.join VoiceAgent.newline parts) = true.
Proof.
  induction 1 as [|p parts Hp Hparts IH]; [reflexivity|].
  destruct parts as [|p' parts]; [exact Hp|].
  change (VoiceAgent.join VoiceAgent.newline (p :: p' :: parts))
    with (p +:+ VoiceAgent.newline +:+
          VoiceAgent.join VoiceAgent.newline (p' :: parts)).
  rewrite braces_paired_app by exact Hp.
  rewrite braces_paired_app by reflexivity. exact IH.
Qed.

(** X9.  When no tool name contains a brace, every brace of the tools
    description is doubled, whatever the schemas contain: a format
    template takes the whole description as literal text. *)
Theorem tools_description_braces_paired (tools : list tool) :
  Forall (fun t => brace_free (name t) = true) tools ->
  braces_paired (get_tools_description tools) = true.
Proof.
  intros Hnames. unfold get_tools_description. apply join_newline_paired.
  apply Forall_map. eapply Forall_impl; [exact Hnames|].
  intros t Hname. simpl.
  rewrite braces_paired_app by (by apply brace_free_paired).
  simpl. apply escape_braces_paired.
Qed.

Lemma tools_description_braces_paired_witness :
  braces_paired (get_tools_description sample_tools) = true.
Proof.
  apply (tools_description_braces_paired sample_tools).
  repeat constructor.
Defined.

(** X10.  Under an orchestration runtime ([CORAL_ORCHESTRATION_RUNTIME] set,
    even to the empty string) the [.env] file plays no part in the
    configuration. *)
Theorem dotenv_ignored_under_runtime urlencode environ dotenv1 dotenv2 v :
  environ !! "CORAL_ORCHESTRATION_RUNTIME" = Some v ->
  connect_config urlencode environ dotenv1 =
  connect_config urlencode environ dotenv2.
Proof.
  intros Hrt. unfold connect_config, getenv. rewrite Hrt. reflexivity.
Qed.

Lemma dotenv_ignored_under_runtime_witness :
  connect_config sample_urlencode runtime_environ ∅ =
  connect_config sample_urlencode runtime_environ
    {[ "CORAL_AGENT_ID" := "someone_else" ]}.
Proof.
  apply (dotenv_ignored_under_runtime sample_urlencode runtime_environ ∅
           {[ "CORAL_AGENT_ID" := "someone_else" ]} "docker").
  reflexivity.
Defined.

(** X11.  A hub URL and an agent id set (non-empty) in the process environment
    are the ones used, whatever the [.env] file says: the configuration
    succeeds and the server URL is the hub URL, a question mark, and the
    encoded agent id and description. *)
Theorem process_environment_wins urlencode environ dotenv base agent :
  environ !! "CORAL_SSE_URL" = Some base ->
  environ !! "CORAL_AGENT_ID" = Some agent ->
  base <> "" -> agent <> "" ->
  exists conn,
    (connect_config urlencode environ dotenv).2 = Ok conn /\
    url conn =
      base +:+ "?" +:+
      urlencode [("agentId", agent);
                 ("agentDescription", "Web agent for web browsing and surfing")] /\
    timeout conn = sse_read_timeout conn.
Proof.
  intros Hbase Hagent Hb Ha.
  assert (Heff : forall env',
            (env' = environ \/ env' = load_dotenv environ dotenv) ->
            env' !! "CORAL_SSE_URL" = Some base /\
            env' !! "CORAL_AGENT_ID" = Some agent).
  { intros env' [-> | ->]; [done|]. unfold load_dotenv.
    split; apply lookup_union_Some_l; assumption. }
  unfold connect_config, getenv.
  destruct (environ !! "CORAL_ORCHESTRATION_RUNTIME");
    [destruct (Heff environ) as [-> ->]; [by left|]
    |destruct (Heff (load_dotenv environ dotenv)) as [-> ->]; [by right|]];
    simpl;
    (destruct (String.eqb_spec base ""); [contradiction|]);
    (destruct (String.eqb_spec agent ""); [contradiction|]);
    simpl; eexists; repeat split.
Qed.

Lemma process_environment_wins_witness :
  exists conn,
    (connect_config sample_urlencode runtime_environ
       {[ "CORAL_SSE_URL" := "http://elsewhere/sse" ]}).2 = Ok conn /\
    url conn =
      "http://localhost:5555/sse" +:+ "?" +:+
      sample_urlencode
        [("agentId", "browser_agent");
         ("agentDescription", "Web agent for web browsing and surfing")] /\
    timeout conn = sse_read_timeout conn.
Proof.
  apply (process_environment_wins sample_urlencode runtime_environ
           {[ "CORAL_SSE_URL" := "http://elsewhere/sse" ]}
           "http://localhost:5555/sse" "browser_agent");
    [reflexivity | reflexivity | discriminate | discriminate].
Defined.

(** X12.  The configuration fails, with the error log as its only action,
    exactly when the hub URL or the agent id is unset or empty in the
    environment in force (the process environment, completed by [.env]
    when no orchestration runtime is declared). *)
Theorem config_fails_iff_variable_missing urlencode environ dotenv :
  let env' := match environ !! "CORAL_ORCHESTRATION_RUNTIME" with
              | None => load_dotenv environ dotenv
              | Some _ => environ
              end in
  (connect_config urlencode environ dotenv =
     ([BrowserAgent.EvLog BrowserAgent.ERROR
         "Missing required environment variables"],
      Raise "CORAL_SSE_URL and CORAL_AGENT_ID must be set") <->
   (env' !! "CORAL_SSE_URL" = None \/ env' !! "CORAL_SSE_URL" = Some "" \/
    env' !! "CORAL_AGENT_ID" = None \/ env' !! "CORAL_AGENT_ID" = Some "")) /\
  (returned (connect_config urlencode environ dotenv).2 = false <->
   connect_config urlencode environ dotenv =
     ([BrowserAgent.EvLog BrowserAgent.ERROR
         "Missing required environment variables"],
      Raise "CORAL_SSE_URL and CORAL_AGENT_ID must be set")).
Proof.
  unfold connect_config, getenv.
  set (env' := match environ !! "CORAL_ORCHESTRATION_RUNTIME" with
               | None => load_dotenv environ dotenv
               | Some _ => environ
               end). simpl.
  destruct (env' !! "CORAL_SSE_URL") as [base|]; simpl.
  - destruct (String.eqb_spec base "") as [-> | Hb]; simpl.
    + split; split; auto.
    + destruct (env' !! "CORAL_AGENT_ID") as [agent|]; simpl.
      * destruct (String.eqb_spec agent "") as [-> | Ha]; simpl.
        -- split; split; auto.
        -- split; split; try discriminate.
           intros [H | [H | [H | H]]]; congruence.
      * split; split; auto.
  - split; split; auto.
Qed.

End BrowserSetupProperties.

(** ** Browser-Agent/test.py *)

Section BrowserAgentTestProperties.

Import BrowserAgentTest.

(** X13.  [process_browsing_tools] always returns a dict.  It calls the engine
    once when the agent chain and the session are present, and not at
    all otherwise.  The dict has a ["step"] entry exactly when that call
    was made and returned, and the entry is then the argument's step
    plus one; its ["status"] is "success" in that case, "error" when the
    call raised, and absent when nothing was called.  The call waits 2
    seconds before, and 3 more after a dispatch that returned. *)
Theorem process_browsing_tools_outcome (process_agent_query : dispatcher)
  (args : AgentArgs) (session : pyval) :
  let initialised := truthy (agent_chain args) && truthy session in
  let dispatched :=
    initialised &&
    returned (process_agent_query (input_query args) (tool_result args)
                (last_tool_call args) (step args)) in
  let '(t, r) := process_browsing_tools process_agent_query args session in
  exists d,
    r = Ok d /\
    length (List.filter (fun ev => match ev with
                                   | EvProcessAgentQuery _ _ _ _ _ => true
                                   | _ => false
                                   end) t) = (if initialised then 1 else 0)%nat /\
    d !! "step" = (if dispatched then Some (PInt (step args + 1)) else None) /\
    d !! "status" =
      (if dispatched then Some (PStr "success")
       else if initialised then Some (PStr "error") else None) /\
    slept t = (if dispatched then 5 else 2)%Z.
Proof.
  unfold process_browsing_tools, process_browsing_tools_try. simpl.
  destruct (truthy (agent_chain args)); simpl;
    [|eexists; repeat split; reflexivity].
  destruct (truthy session); simpl; [|eexists; repeat split; reflexivity].
  destruct (process_agent_query _ _ _ _); simpl;
    eexists; repeat split; reflexivity.
Qed.

Lemma test_main_loop_cons ainvoke runs st :
  main_loop (ainvoke :: runs) st =
  ((iteration ainvoke st).1 ++ (main_loop runs (iteration ainvoke st).2).1,
   (main_loop runs (iteration ainvoke st).2).2).
Proof.
  simpl. destruct (iteration ainvoke st) as [t st']. simpl.
  destruct (main_loop runs st') as [t' st'']. reflexivity.
Qed.

Lemma slept_app t1 t2 : slept (t1 ++ t2) = (slept t1 + slept t2)%Z.
Proof.
  induction t1 as [|ev t1 IH]; [reflexivity|].
  destruct ev; simpl; rewrite IH; lia.
Qed.

(** X14.  The loop of test.py sleeps [SLEEP_INTERVAL] = 2 seconds in every
    iteration, whether the executor returned or raised, and its step
    counts the invocations that returned. *)
Theorem test_loop_always_sleeps (runs : list executor) (st : loop_state) :
  slept (main_loop runs st).1 = (2 * Z.of_nat (length runs))%Z /\
  st_step (main_loop runs st).2 =
    (st_step st + Z.of_nat (executor_returns (main_loop runs st).1))%Z.
Proof.
  revert st. induction runs as [|ainvoke runs IH]; intros st.
  - simpl. unfold executor_returns. simpl. lia.
  - rewrite test_main_loop_cons. simpl fst. simpl snd.
    destruct (IH (iteration ainvoke st).2) as [IHs IHn].
    rewrite slept_app, IHs, IHn. unfold executor_returns.
    rewrite List.filter_app, length_app, length_cons. unfold iteration.
    destruct (ainvoke _ _ _); cbn [fst snd app slept List.filter length st_step
                                    returned];
      unfold SLEEP_INTERVAL; split; lia.
Qed.

End BrowserAgentTestProperties.

(** ** More on the voice front end *)

Section VoiceFurtherProperties.

Import VoiceAgent VoiceFurther VoiceSamples.

(** *** [strip] *)

Lemma lstrip_eq s :
  lstrip s = match space_prefix s with
             | Some r => lstrip r
             | None => s
             end.
Proof.
  destruct s as [|a s1]; [reflexivity|]. simpl.
  destruct (is_space a); [reflexivity|].
  destruct s1 as [|b s2]; [reflexivity|].
  destruct (is_space2 a b); [reflexivity|].
  destruct s2 as [|c s3]; [reflexivity|].
  destruct (is_space3 a b c); reflexivity.
Qed.

Lemma space_prefix_shorter s r :
  space_prefix s = Some r -> (String.length r < String.length s)%nat.
Proof.
  destruct s as [|a s1]; [discriminate|]. simpl.
  destruct (is_space a); [intros [= <-]; lia|].
  destruct s1 as [|b s2]; [discriminate|].
  destruct (is_space2 a b); [intros [= <-]; simpl; lia|].
  destruct s2 as [|c s3]; [discriminate|].
  destruct (is_space3 a b c); [intros [= <-]; simpl; lia | discriminate].
Qed.

(** A white-space character at the head of a string stays at the head
    when text is added behind. *)
Lemma space_prefix_app x r y :
  space_prefix x = Some r -> space_prefix (x +:+ y) = Some (r +:+ y).
Proof.
  destruct x as [|a s1]; [discriminate|]. simpl.
  destruct (is_space a); [intros [= <-]; reflexivity|].
  destruct s1 as [|b s2]; [discriminate|]. simpl.
  destruct (is_space2 a b); [intros [= <-]; reflexivity|].
  destruct s2 as [|c s3]; [discriminate|]. simpl.
  destruct (is_space3 a b c); [intros [= <-]; reflexivity | discriminate].
Qed.

(** What [lstrip] returns begins with no white space. *)
Lemma lstrip_no_space s : space_prefix (lstrip s) = None.
Proof.
  remember (String.length s) as n eqn:Hn. revert s Hn.
  induction n as [n IH] using lt_wf_ind. intros s ->.
  rewrite lstrip_eq. destruct (space_prefix s) as [r|] eqn:Hs; [|exact Hs].
  apply (IH (String.length r)); [by apply space_prefix_shorter | reflexivity].
Qed.

Lemma lstrip_fixed s : space_prefix s = None -> lstrip s = s.
Proof. intros Hs. rewrite lstrip_eq, Hs. reflexivity. Qed.

Lemma lstrip_idempotent s : lstrip (lstrip s) = lstrip s.
Proof. apply lstrip_fixed, lstrip_no_space. Qed.

(** White space followed by more text: [lstrip] goes on into the text. *)
Lemma lstrip_app_blank x y : lstrip x = "" -> lstrip (x +:+ y) = lstrip y.
Proof.
  remember (String.length x) as n eqn:Hn. revert x Hn.
  induction n as [n IH] using lt_wf_ind. intros x -> Hx.
  rewrite lstrip_eq in Hx. destruct (space_prefix x) as [r|] eqn:Hs.
  - rewrite (lstrip_eq (x +:+ y)), (space_prefix_app x r y Hs).
    apply (IH (String.length r)); [by apply space_prefix_shorter | done | done].
  - subst x. reflexivity.
Qed.

(** [rstrip] cuts a run of white space off the end. *)
Lemma rstrip_split s : exists t, s = rstrip s +:+ t /\ lstrip t = "".
Proof.
  induction s as [|a s1 [t [Hs Ht]]]; [by exists ""|].
  cbn [rstrip]. destruct (String.eqb_spec (lstrip (String a s1)) "") as [Hb|Hb].
  - by exists (String a s1).
  - exists t. split; [|exact Ht]. rewrite Hs at 1. reflexivity.
Qed.

Lemma rstrip_idempotent s : rstrip (rstrip s) = rstrip s.
Proof.
  induction s as [|a s1 IH]; [reflexivity|].
  cbn [rstrip]. destruct (String.eqb_spec (lstrip (String a s1)) "") as [Hb|Hb];
    [reflexivity|].
  cbn [rstrip]. rewrite IH.
  destruct (String.eqb_spec (lstrip (String a (rstrip s1))) "") as [Hb'|Hb'];
    [|reflexivity].
  destruct (rstrip_split s1) as (t & Hs & Ht). destruct Hb.
  rewrite Hs. change (String a (rstrip s1 +:+ t)) with (String a (rstrip s1) +:+ t).
  rewrite (lstrip_app_blank _ t Hb'). exact Ht.
Qed.

Lemma rstrip_no_space s : space_prefix s = None -> space_prefix (rstrip s) = None.
Proof.
  intros Hs. destruct (space_prefix (rstrip s)) as [r|] eqn:Hr; [|reflexivity].
  destruct (rstrip_split s) as (t & Hsplit & _).
  rewrite Hsplit, (space_prefix_app _ r t Hr) in Hs. discriminate.
Qed.

(** Stripping twice is stripping once: a stripped text has no white
    space left at either end. *)
Lemma strip_idempotent s : strip (strip s) = strip s.
Proof.
  unfold strip.
  rewrite (lstrip_fixed (rstrip (lstrip s)))
    by apply rstrip_no_space, lstrip_no_space.
  apply rstrip_idempotent.
Qed.

(** *** The input of [call_coral_agent] *)

Lemma and_strip_stripped v q :
  and_strip v = Done (Some q) -> q <> "" /\ strip q = q.
Proof.
  unfold and_strip. destruct (truthy v); [|discriminate].
  destruct v; try discriminate.
  destruct (String.eqb_spec (strip s) ""); [discriminate|].
  intros [= <-]. split; [assumption | apply strip_idempotent].
Qed.

Lemma coral_agent_input_stripped self input_text q :
  coral_agent_input self input_text = Done (Some q) -> q <> "" /\ strip q = q.
Proof.
  unfold coral_agent_input.
  set (v := match input_text with
            | PDict d => dict_get_default d "transcript" (PStr "")
            | _ => input_text
            end).
  destruct (and_strip v) as [[q'|]|e] eqn:Hv; [| |discriminate].
  - intros [= <-]. by apply (and_strip_stripped v).
  - apply and_strip_stripped.
Qed.

(** X15.  Whatever the argument and the transcript are, a query that
    [call_coral_agent] hands to the engine is non-empty and carries no
    whitespace at either end. *)
Theorem engine_query_is_stripped (engine_call : engine)
  (self : ConversationManager) (input_text : pyval) :
  Forall (fun ev => match ev with
                    | EvInvoke q _ _ _ => q <> "" /\ strip q = q
                    | _ => True
                    end) (call_coral_agent engine_call self input_text).1.1.
Proof.
  unfold call_coral_agent.
  destruct (coral_agent self) as [ca|]; [|constructor].
  destruct (coral_agent_input self input_text) as [[q|]|e] eqn:Hq;
    [|constructor|constructor].
  pose proof (coral_agent_input_stripped _ _ _ Hq) as Hs.
  destruct (engine_call q _ _) as [res|e]; simpl.
  - repeat constructor; apply Hs.
  - destruct (is_Exception e); simpl; repeat constructor; apply Hs.
Qed.

(** X16.  With a textual argument and a textual transcript ([None] or a
    string), the query is the stripped argument when that is not blank,
    otherwise the stripped transcript when that is not blank, otherwise
    there is none. *)
Theorem argument_before_transcript (self : ConversationManager)
  (input_text : pyval) :
  is_text input_text = true ->
  is_text (latest_transcript self) = true ->
  coral_agent_input self input_text =
    Done (if negb (String.eqb (stripped_text input_text) "")
          then Some (stripped_text input_text)
          else if negb (String.eqb (stripped_text (latest_transcript self)) "")
               then Some (stripped_text (latest_transcript self))
               else None).
Proof.
  intros Hin Htr. unfold coral_agent_input, and_strip.
  destruct input_text as [| | |s| |]; try discriminate; simpl.
  - destruct (latest_transcript self) as [| | |t| |]; try discriminate; simpl;
      [reflexivity|].
    destruct (String.eqb_spec t "") as [-> | Ht]; simpl; [reflexivity|].
    destruct (String.eqb (strip t) ""); reflexivity.
  - destruct (String.eqb_spec s "") as [-> | Hs]; simpl.
    + destruct (latest_transcript self) as [| | |t| |]; try discriminate; simpl;
        [reflexivity|].
      destruct (String.eqb_spec t "") as [-> | Ht]; simpl; [reflexivity|].
      destruct (String.eqb (strip t) ""); reflexivity.
    + destruct (String.eqb (strip s) ""); simpl; [|reflexivity].
      destruct (latest_transcript self) as [| | |t| |]; try discriminate; simpl;
        [reflexivity|].
      destruct (String.eqb_spec t "") as [-> | Ht]; simpl; [reflexivity|].
      destruct (String.eqb (strip t) ""); reflexivity.
Qed.

Lemma argument_before_transcript_witness :
  coral_agent_input
    (update_transcript (ConversationManager_init "tools")
       (PStr (em_space +:+ "open the store ")))
    (PStr nbsp) = Done (Some "open the store").
Proof.
  exact (argument_before_transcript
           (update_transcript (ConversationManager_init "tools")
              (PStr (em_space +:+ "open the store ")))
           (PStr nbsp) eq_refl eq_refl).
Defined.

(** X17.  A dict argument stands for its ["transcript"] entry (the empty
    string when there is none), provided that entry is not itself a
    dict. *)
Theorem dict_argument_is_its_transcript (self : ConversationManager)
  (d : gmap string pyval) :
  (forall d', dict_get_default d "transcript" (PStr "") <> PDict d') ->
  coral_agent_input self (PDict d) =
  coral_agent_input self (dict_get_default d "transcript" (PStr "")).
Proof.
  intros Hnot. unfold coral_agent_input.
  destruct (dict_get_default d "transcript" (PStr "")) eqn:Hv; try reflexivity.
  destruct (Hnot d0). reflexivity.
Qed.

Lemma dict_argument_is_its_transcript_witness :
  coral_agent_input (ConversationManager_init "tools")
    (PDict {[ "transcript" := PStr "scroll down" ]}) =
  coral_agent_input (ConversationManager_init "tools")
    (dict_get_default {[ "transcript" := PStr "scroll down" ]} "transcript"
       (PStr "")).
Proof.
  apply (dict_argument_is_its_transcript (ConversationManager_init "tools")
           {[ "transcript" := PStr "scroll down" ]}).
  intros d'. vm_compute. discriminate.
Defined.

(** X18.  With a coordinator, a textual argument and a textual transcript,
    the call answers with the "no valid input" text, invoking nothing
    and leaving the manager as it was, exactly when the argument and the
    transcript are both blank. *)
Theorem no_valid_input_iff_blank (engine_call : engine)
  (self : ConversationManager) (ca : CoralAgent) (input_text : pyval) :
  coral_agent self = Some ca ->
  is_text input_text = true ->
  is_text (latest_transcript self) = true ->
  call_coral_agent engine_call self input_text =
    ([], self, Done (PStr "Error: No valid input or transcript available")) <->
  stripped_text input_text = "" /\ stripped_text (latest_transcript self) = "".
Proof.
  intros Hca Hin Htr. unfold call_coral_agent.
  rewrite Hca, (argument_before_transcript self input_text Hin Htr).
  destruct (String.eqb_spec (stripped_text input_text) "") as [Hi | Hi]; simpl.
  - destruct (String.eqb_spec (stripped_text (latest_transcript self)) "")
      as [Ht | Ht]; simpl.
    + split; [intros _; by split | reflexivity].
    + split; [|intros [_ ?]; contradiction].
      destruct (engine_call _ _ _) as [res|e];
        [|destruct (is_Exception e)]; discriminate.
  - split; [|intros [? _]; contradiction].
    destruct (engine_call _ _ _) as [res|e];
      [|destruct (is_Exception e)]; discriminate.
Qed.

Lemma no_valid_input_iff_blank_witness :
  call_coral_agent (fun _ _ _ => Done ∅)
    (update_transcript (ConversationManager_init "tools") (PStr " "))
    (PStr nbsp) =
    ([], update_transcript (ConversationManager_init "tools") (PStr " "),
     Done (PStr "Error: No valid input or transcript available")) <->
  stripped_text (PStr nbsp) = "" /\ stripped_text (PStr " ") = "".
Proof.
  exact (no_valid_input_iff_blank (fun _ _ _ => Done ∅)
           (update_transcript (ConversationManager_init "tools") (PStr " "))
           (CoralAgent_init "tools") (PStr nbsp) eq_refl eq_refl eq_refl).
Defined.

(** *** The history over a sequence of calls *)

Lemma answered_queries_app t1 t2 :
  answered_queries (t1 ++ t2) = answered_queries t1 ++ answered_queries t2.
Proof.
  induction t1 as [|ev t1 IH]; [reflexivity|].
  destruct ev as [| |q c h [|]| | | | | |]; simpl; rewrite IH; reflexivity.
Qed.

(** One call: the history takes in exactly the answered queries of the
    call's trace. *)
Lemma call_history (engine_call : engine) self input_text ca :
  coral_agent self = Some ca ->
  exists ca',
    coral_agent (call_coral_agent engine_call self input_text).1.2 = Some ca' /\
    history ca' =
      fold_left deque_append
        (answered_queries (call_coral_agent engine_call self input_text).1.1)
        (history ca).
Proof.
  intros Hca. unfold call_coral_agent. rewrite Hca.
  destruct (coral_agent_input self input_text) as [[q|]|e]; simpl;
    [|by exists ca|by exists ca].
  destruct (engine_call q _ _) as [res|e]; simpl.
  - eexists. split; reflexivity.
  - destruct (is_Exception e); simpl; by exists ca.
Qed.

Lemma perform_history actions self ca :
  coral_agent self = Some ca ->
  exists ca',
    coral_agent (perform actions self).2 = Some ca' /\
    history ca' =
      fold_left deque_append (answered_queries (perform actions self).1)
        (history ca).
Proof.
  revert self ca. induction actions as [|[engine_call input_text | tr] rest IH];
    intros self ca Hca.
  - exists ca. split; [exact Hca | reflexivity].
  - simpl.
    destruct (call_history engine_call self input_text ca Hca)
      as (ca1 & Hca1 & Hh1).
    destruct (call_coral_agent engine_call self input_text) as [[t self'] r].
    simpl in Hca1, Hh1.
    destruct (IH self' ca1 Hca1) as (ca2 & Hca2 & Hh2).
    destruct (perform rest self') as [t' self'']. simpl in *.
    exists ca2. split; [exact Hca2|].
    rewrite answered_queries_app, fold_left_app, <- Hh1. exact Hh2.
  - simpl. apply (IH (update_transcript self tr) ca). exact Hca.
Qed.

(** X19.  After any sequence of [call_coral_agent] and [update_transcript]
    calls on a new manager, the history holds at most 3 queries: the 3
    most recent ones that the engine answered, oldest first. *)
Theorem manager_history_is_last_three (tools : string) (actions : list action) :
  exists ca,
    coral_agent (perform actions (ConversationManager_init tools)).2 = Some ca /\
    items (history ca) =
      lastn 3 (answered_queries
                 (perform actions (ConversationManager_init tools)).1) /\
    (length (items (history ca)) <= 3)%nat.
Proof.
  destruct (perform_history actions (ConversationManager_init tools)
              (CoralAgent_init tools) eq_refl) as (ca & Hca & Hh).
  exists ca. split; [exact Hca|]. rewrite Hh. simpl.
  destruct (appends_lastn 3
              (answered_queries
                 (perform actions (ConversationManager_init tools)).1))
    as [_ ->].
  split; [reflexivity | apply length_lastn].
Qed.

(** X20.  The history text is "None" for the empty history and for no other:
    a remembered query, even the query "None", shows as a numbered
    line. *)
Theorem history_str_none_iff_empty (h : deque string) :
  history_str h = "None" <-> items h = [].
Proof.
  unfold history_str. destruct (items h) as [|q rest]; [done|].
  split; [|discriminate]. simpl.
  destruct rest; discriminate.
Qed.

(** *** The voice session *)


(** X22.  When the provider ends the session normally, after any time
    and with any conversation id, the session is reported as an error:
    the value that [wait_for_session_end()] returned cannot be awaited,
    so the [Exception] branch prints the error and issues [end_session]
    once, and the conversation id is never printed. *)
Theorem ended_session_reported_as_error (env : session_env) seconds id :
  initialize_conversation env = Done tt ->
  start_session env = Done tt ->
  wait_for_session_end env = Ends seconds (Done id) ->
  run_voice_session env =
    ([EvInitConversation true; EvSignal; EvStartSession true;
      EvWaitForSessionEnd; EvWaitFor 120;
      EvPrint ("Error in voice session: " +:+ not_awaitable env);
      EvEndSession (done (end_session env))],
     Some (end_session env)) /\
  end_sessions (run_voice_session env).1 = 1%nat /\
  ~ In (EvPrint "Voice session ended. Conversation ID: ")
       (run_voice_session env).1.
Proof.
  intros Hinit Hstart Hwait.
  assert (Hrun : run_voice_session env =
            ([EvInitConversation true; EvSignal; EvStartSession true;
              EvWaitForSessionEnd; EvWaitFor 120;
              EvPrint ("Error in voice session: " +:+ not_awaitable env);
              EvEndSession (done (end_session env))],
             Some (end_session env))).
  { unfold run_voice_session. rewrite Hinit, Hstart, Hwait. reflexivity. }
  rewrite Hrun. split; [reflexivity|]. split; [reflexivity|].
  simpl. intros [H|[H|[H|[H|[H|[H|[H|[]]]]]]]]; discriminate.
Qed.

Lemma ended_session_reported_as_error_witness :
  run_voice_session completed_provider =
    ([EvInitConversation true; EvSignal; EvStartSession true;
      EvWaitForSessionEnd; EvWaitFor 120;
      EvPrint ("Error in voice session: " +:+ not_awaitable completed_provider);
      EvEndSession (done (end_session completed_provider))],
     Some (end_session completed_provider)) /\
  end_sessions (run_voice_session completed_provider).1 = 1%nat /\
  ~ In (EvPrint "Voice session ended. Conversation ID: ")
       (run_voice_session completed_provider).1.
Proof.
  exact (ended_session_reported_as_error completed_provider 45%Q
           (PStr "conv_1") eq_refl eq_refl eq_refl).
Defined.



(** *** The text/voice loop *)

(** X24.  A turn of [main] ends the loop exactly when the line read,
    stripped and lower-cased, is "quit". *)
Theorem quit_is_the_only_exit (env : main_env) (st : main_state) :
  (main_iteration env st).2 = Some (Done Break) <->
  exists line, read_input env = Done line /\ lower (strip line) = "quit".
Proof.
  unfold main_iteration, main_try.
  destruct (read_input env) as [line|e].
  - destruct (String.eqb_spec (lower (strip line)) "quit") as [Hq | Hq].
    + split; [intros _; by exists line | reflexivity].
    + assert (Hno : ~ exists line0, Done line = Done line0 /\
                       lower (strip line0) = "quit").
      { intros (line0 & [= <-] & Hq'). contradiction. }
      destruct (String.eqb (lower (strip line)) "v").
      * destruct (run_voice_session (session env)) as [t [[|e]|]]; simpl.
        -- split; [discriminate | intros H; destruct (Hno H)].
        -- destruct e; simpl;
             (split; [discriminate | intros H; destruct (Hno H)]).
        -- split; [discriminate | intros H; destruct (Hno H)].
      * destruct (negb (String.eqb (strip line) "")); simpl.
        -- destruct (call_coral_agent _ _ _) as [[t mgr'] [resp|e]]; simpl.
           ++ split; [discriminate | intros H; destruct (Hno H)].
           ++ destruct e; simpl;
                (split; [discriminate | intros H; destruct (Hno H)]).
        -- split; [discriminate | intros H; destruct (Hno H)].
  - assert (Hno : ~ exists line, Throw e = Done line /\
                     lower (strip line) = "quit").
    { intros (line & Hd & _). discriminate. }
    destruct e; simpl;
      try (split; [discriminate | intros H; destruct (Hno H)]).
    destruct (on_sigint (handler st)) as [th e]. destruct e; simpl;
      (split; [discriminate | intros H; destruct (Hno H)]).
Qed.

Lemma quit_is_the_only_exit_witness :
  (main_iteration
     {| read_input := Done ("Quit" +:+ em_space);
        session := silent_provider;
        ainvoke := fun _ _ _ => Done ∅;
        callbacks := fun mgr => mgr |}
     (main_init (ConversationManager_init "tools"))).2 = Some (Done Break).
Proof.
  apply quit_is_the_only_exit. exists ("Quit" +:+ em_space).
  split; reflexivity.
Defined.

(** X25.  No [KeyboardInterrupt] and no exception deriving from
    [Exception] leaves a turn of [main]: whatever does leave it is
    outside [Exception]. *)
Theorem only_base_exceptions_leave_main (env : main_env) (st : main_state) :
  match (main_iteration env st).2 with
  | Some (Throw e) => exists name, e = ExcBase name
  | _ => True
  end.
Proof.
  unfold main_iteration.
  destruct (main_try env st) as [[t st'] [[c|e]|]]; simpl; try exact I.
  destruct e; simpl; eauto.
Qed.

(** X29.  The handler that a voice session installs outlives it.  After
    a turn that entered voice mode, a SIGINT at the prompt of a later
    turn issues [end_session] on that session's conversation once more,
    and the loop goes on. *)
Theorem interrupt_after_session_ends_it_again (voice later : main_env)
  (st : main_state) (line : string) :
  read_input voice = Done line ->
  lower (strip line) = "v" ->
  initialize_conversation (session voice) = Done tt ->
  end_session (session voice) = Done tt ->
  read_input later = Throw ExcKeyboardInterrupt ->
  handler (main_iteration voice st).1.2 = Some (session voice) /\
  main_iteration later (main_iteration voice st).1.2 =
    ([EvInput false; EvEndSession true;
      EvPrint (newline +:+ "Voice session terminated.");
      EvPrint (newline +:+ "Returning to text mode.")],
     (main_iteration voice st).1.2, Some (Done Continue)).
Proof.
  intros Hread Hv Hinit Hend Hlater.
  assert (Hst : handler (main_iteration voice st).1.2 = Some (session voice)).
  { unfold main_iteration, main_try. rewrite Hread, Hv, Hinit. simpl.
    destruct (run_voice_session (session voice)) as [t [[|e]|]]; simpl;
      [reflexivity | destruct e; reflexivity | reflexivity]. }
  split; [exact Hst|].
  unfold main_iteration at 1. unfold main_try at 1.
  rewrite Hlater, Hst. unfold on_sigint, signal_handler. rewrite Hend.
  reflexivity.
Qed.

Lemma interrupt_after_session_ends_it_again_witness :
  let st := main_init (ConversationManager_init "tools") in
  handler (main_iteration (voice_request late_provider) st).1.2 =
    Some (session (voice_request late_provider)) /\
  main_iteration interrupted_prompt
    (main_iteration (voice_request late_provider) st).1.2 =
    ([EvInput false; EvEndSession true;
      EvPrint (newline +:+ "Voice session terminated.");
      EvPrint (newline +:+ "Returning to text mode.")],
     (main_iteration (voice_request late_provider) st).1.2,
     Some (Done Continue)).
Proof.
  exact (interrupt_after_session_ends_it_again (voice_request late_provider)
           interrupted_prompt (main_init (ConversationManager_init "tools"))
           "v" eq_refl eq_refl eq_refl eq_refl eq_refl).
Defined.

End VoiceFurtherProperties.

(** ** The coordinator's own prompt loop *)

Section CoralAgentRunProperties.

Import VoiceAgent CoralAgentRun.

Lemma run_answered_queries_app t1 t2 :
  answered_queries (t1 ++ t2) = answered_queries t1 ++ answered_queries t2.
Proof.
  induction t1 as [|ev t1 IH]; [reflexivity|].
  destruct ev as [| |q c h [|]|]; simpl; rewrite IH; reflexivity.
Qed.

Lemma run_iteration_history (tn : turn) (self : CoralAgent) :
  history (run_iteration tn self).1.2 =
    fold_left deque_append (answered_queries (run_iteration tn self).1.1)
      (history self) /\
  tools_description (run_iteration tn self).1.2 = tools_description self.
Proof.
  unfold run_iteration, run_except.
  destruct (read_input tn) as [line|e].
  - destruct (String.eqb (strip line) ""); [split; reflexivity|].
    destruct (ainvoke tn line _ _) as [res|e]; [split; reflexivity|].
    destruct e; split; reflexivity.
  - destruct e; split; reflexivity.
Qed.

Lemma run_history (turns : list turn) (self : CoralAgent) :
  history (run turns self).1.2 =
    fold_left deque_append (answered_queries (run turns self).1.1)
      (history self).
Proof.
  revert self. induction turns as [|tn turns IH]; intros self; [reflexivity|].
  simpl. destruct (run_iteration_history tn self) as [Hh _].
  destruct (run_iteration tn self) as [[t self'] [[|]|e]]; simpl in *;
    try exact Hh.
  specialize (IH self'). destruct (run turns self') as [[t' self''] r].
  simpl in *. rewrite run_answered_queries_app, fold_left_app, <- Hh.
  exact IH.
Qed.

(** X26.  After any number of turns of [run] on a new [CoralAgent], the history
    holds at most 3 queries: the 3 most recent inputs that the engine
    answered, as typed, oldest first. *)
Theorem run_history_is_last_three (tools : string) (turns : list turn) :
  items (history (run turns (CoralAgent_init tools)).1.2) =
    lastn 3 (answered_queries (run turns (CoralAgent_init tools)).1.1) /\
  (length (items (history (run turns (CoralAgent_init tools)).1.2)) <= 3)%nat.
Proof.
  rewrite run_history. simpl.
  destruct (appends_lastn 3
              (answered_queries (run turns (CoralAgent_init tools)).1.1))
    as [_ ->].
  split; [reflexivity | apply length_lastn].
Qed.

(** X27.  A turn of [run] ends the loop exactly when [KeyboardInterrupt] is
    raised at the prompt or during the invocation of a non-blank input;
    an engine error deriving from [Exception] never ends it. *)
Theorem run_exits_only_on_interrupt (tn : turn) (self : CoralAgent) :
  (run_iteration tn self).2 = Done Break <->
  read_input tn = Throw ExcKeyboardInterrupt \/
  exists line,
    read_input tn = Done line /\ strip line <> "" /\
    ainvoke tn line (tools_description self) (history_str (history self))
      = Throw ExcKeyboardInterrupt.
Proof.
  unfold run_iteration, run_except.
  destruct (read_input tn) as [line|e].
  - destruct (String.eqb_spec (strip line) "") as [Hblank | Hblank].
    + split; [discriminate|].
      intros [H | (line' & [= <-] & Hne & _)]; [discriminate | contradiction].
    + destruct (ainvoke tn line _ _) as [res|e] eqn:Hcall.
      * split; [discriminate|].
        intros [H | (line' & [= <-] & _ & H)]; [discriminate|].
        rewrite Hcall in H. discriminate.
      * destruct e; simpl;
          (split;
           [first [discriminate
                  | intros _; right; exists line; by rewrite Hcall]
           |first [by intros _
                  | intros [H | (line' & [= <-] & _ & H)];
                    [discriminate | rewrite Hcall in H; discriminate]]]).
  - destruct e; simpl;
      (split;
       [first [discriminate | intros _; by left]
       |first [by intros _
              | intros [H | (line' & H & _)]; discriminate]]).
Qed.

(** X28.  Over any number of turns, [run] hands the engine only lines that are
    not blank. *)
Theorem run_never_invokes_on_blank (turns : list turn) (self : CoralAgent) :
  Forall (fun ev => match ev with
                    | EvInvoke q _ _ _ => strip q <> ""
                    | _ => True
                    end) (run turns self).1.1.
Proof.
  revert self. induction turns as [|tn turns IH]; intros self; [constructor|].
  simpl.
  assert (Hit : Forall (fun ev => match ev with
                                  | EvInvoke q _ _ _ => strip q <> ""
                                  | _ => True
                                  end) (run_iteration tn self).1.1).
  { unfold run_iteration, run_except.
    destruct (read_input tn) as [line|e].
    - destruct (String.eqb_spec (strip line) "") as [Hblank | Hblank];
        [repeat constructor|].
      destruct (ainvoke tn line _ _) as [res|e]; simpl;
        [repeat constructor; exact Hblank|].
      destruct e; simpl; repeat constructor; exact Hblank.
    - destruct e; simpl; repeat constructor. }
  destruct (run_iteration tn self) as [[t self'] [[|]|e]]; simpl in *;
    try exact Hit.
  specialize (IH self'). destruct (run turns self') as [[t' self''] r].
  simpl in *. apply Forall_app. split; assumption.
Qed.

Lemma run_exits_only_on_interrupt_witness :
  (run_iteration
     {| read_input := Done VoiceFurther.nbsp;
        ainvoke := fun _ _ _ => Throw ExcKeyboardInterrupt |}
     (CoralAgent_init "tools")).2 <> Done Break.
Proof.
  intros H. apply run_exits_only_on_interrupt in H.
  destruct H as [H | (line & Hline & Hne & _)]; [discriminate|].
  injection Hline as <-. apply Hne. reflexivity.
Defined.

End CoralAgentRunProperties.
